(** * summer_internships_scraper: the scraper pipeline, verified

    A shallow embedding of
    - [models/offers.py]   (the [JobOffer] record and its [get_hash]),
    - [scraper/scraper.py] (the [LinkedInScraper] class),
    - [main.py]            (the orchestrator),
    followed by the properties of the specification that concern them.

    Conventions of the embedding.
    - A Python [str] is a [string] whose characters are the code points
      0..255 (Latin-1); [str.lower], [str.strip] and the UTF-8 encoder are
      the restrictions of the Python ones to that range.
    - A function that may raise returns a [result]; exceptions are the
      constructors of [exn], and [raise ... from err] keeps [err] as a field.
    - The network is a [ClientSession]: a function from the requested URL to
      what the request yields.  Every request is recorded in a trace. *)

From Stdlib Require Import ZArith NArith Ascii List Lia Bool.
From Stdlib Require String.
From stdpp Require Import base gmap strings fin_maps.
Import ListNotations.

(* ===================================================================== *)
(** * Text: Python [str] on the Latin-1 range                              *)
(* ===================================================================== *)

Module Text.

(** [c.isspace()]: the characters [str.strip()] removes. *)
Definition isspace (c : ascii) : bool :=
  let n := N_of_ascii c in
  (((9 <=? n) && (n <=? 13)) || ((28 <=? n) && (n <=? 32))
   || (n =? 133) || (n =? 160))%N.

(** [c.lower()]: A-Z and the accented capitals 0xC0-0xDE (0xD7, the
    multiplication sign, apart) move up by 32. *)
Definition lower_char (c : ascii) : ascii :=
  let n := N_of_ascii c in
  if (((65 <=? n) && (n <=? 90))
      || ((192 <=? n) && (n <=? 222) && negb (n =? 215)))%N
  then ascii_of_N (n + 32) else c.

Fixpoint lower (s : string) : string :=
  match s with
  | EmptyString => EmptyString
  | String c s' => String (lower_char c) (lower s')
  end.

Fixpoint lstrip (s : string) : string :=
  match s with
  | EmptyString => EmptyString
  | String c s' => if isspace c then lstrip s' else s
  end.

Fixpoint rstrip (s : string) : string :=
  match s with
  | EmptyString => EmptyString
  | String c s' =>
      match rstrip s' with
      | EmptyString => if isspace c then EmptyString else String c EmptyString
      | r => String c r
      end
  end.

(** [s.strip()] *)
Definition strip (s : string) : string := rstrip (lstrip s).

(** [s.startswith(p)] *)
Fixpoint startswith (p s : string) : bool :=
  match p, s with
  | EmptyString, _ => true
  | String _ _, EmptyString => false
  | String a p', String b s' => if ascii_dec a b then startswith p' s' else false
  end.

(** [p in s] *)
Fixpoint contains (p s : string) : bool :=
  match s with
  | EmptyString => startswith p EmptyString
  | String _ s' => startswith p s || contains p s'
  end.

(** [s.replace(old, new)] for a one-character [old]. *)
Fixpoint replace_char (old : ascii) (new : string) (s : string) : string :=
  match s with
  | EmptyString => EmptyString
  | String c s' =>
      if ascii_dec c old then new +:+ replace_char old new s'
      else String c (replace_char old new s')
  end.

(** [any(f(x) for x in xs)] *)
Definition any {A} (f : A -> bool) (xs : list A) : bool := existsb f xs.

(** The mathematical notion the claims speak of: [p] occurs in [s]. *)
Definition Substring (p s : string) : Prop :=
  exists pre post, s = pre +:+ p +:+ post.

(** First and last character of a non-empty string. *)
Definition head_char (s : string) : option ascii :=
  match s with EmptyString => None | String c _ => Some c end.

Fixpoint last_char (s : string) : option ascii :=
  match s with
  | EmptyString => None
  | String c EmptyString => Some c
  | String _ s' => last_char s'
  end.

(** A keyword that [strip] cannot cut: it begins and ends on a
    character that is not white space. *)
Definition solid (p : string) : bool :=
  match head_char p, last_char p with
  | Some a, Some b => negb (isspace a) && negb (isspace b)
  | _, _ => false
  end.

End Text.

(* ===================================================================== *)
(** * Exceptions and results                                              *)
(* ===================================================================== *)

(** The exceptions the modelled code raises.  [ParsingError] and
    [ScrapingError] are the classes of [utils/exceptions.py]; the second
    field of [ParsingError] is its [__cause__]. *)
Inductive exn : Type :=
| TypeError (msg : string)
| AttributeError (msg : string)
| ClientError (msg : string)
| ScrapingError (msg : string)
| ParsingError (msg : string) (cause : exn).

Inductive result (A : Type) : Type :=
| Ok (a : A)
| Raise (e : exn).
Arguments Ok {A} a.
Arguments Raise {A} e.

Definition bind {A B} (r : result A) (k : A -> result B) : result B :=
  match r with
  | Ok a => k a
  | Raise e => Raise e
  end.

Notation "'try!' x <- r ; k" := (bind r (fun x => k))
  (at level 10, x name, r at level 100, k at level 200,
   format "'[v' 'try!'  x  <-  r ; '/' k ']'").

(* ===================================================================== *)
(** * hashlib.md5 and str.encode                                          *)
(* ===================================================================== *)

(** MD5 (RFC 1321) on byte strings; a byte is a [Z] in 0..255 and a word
    a [Z] in 0..2^32-1, additions wrapping around. *)
Module MD5.
Local Open Scope Z_scope.

Definition wrap32 (x : Z) : Z := Z.land x 0xFFFFFFFF.
Definition add32 (a b : Z) : Z := wrap32 (a + b).
Definition not32 (x : Z) : Z := Z.lxor x 0xFFFFFFFF.
Definition rotl32 (x n : Z) : Z :=
  wrap32 (Z.lor (Z.shiftl x n) (Z.shiftr x (32 - n))).

Definition s_table : list Z :=
  [7; 12; 17; 22; 7; 12; 17; 22; 7; 12; 17; 22; 7; 12; 17; 22;
   5; 9; 14; 20; 5; 9; 14; 20; 5; 9; 14; 20; 5; 9; 14; 20;
   4; 11; 16; 23; 4; 11; 16; 23; 4; 11; 16; 23; 4; 11; 16; 23;
   6; 10; 15; 21; 6; 10; 15; 21; 6; 10; 15; 21; 6; 10; 15; 21].

Definition K_table : list Z :=
  [0xd76aa478; 0xe8c7b756; 0x242070db; 0xc1bdceee;
   0xf57c0faf; 0x4787c62a; 0xa8304613; 0xfd469501;
   0x698098d8; 0x8b44f7af; 0xffff5bb1; 0x895cd7be;
   0x6b901122; 0xfd987193; 0xa679438e; 0x49b40821;
   0xf61e2562; 0xc040b340; 0x265e5a51; 0xe9b6c7aa;
   0xd62f105d; 0x02441453; 0xd8a1e681; 0xe7d3fbc8;
   0x21e1cde6; 0xc33707d6; 0xf4d50d87; 0x455a14ed;
   0xa9e3e905; 0xfcefa3f8; 0x676f02d9; 0x8d2a4c8a;
   0xfffa3942; 0x8771f681; 0x6d9d6122; 0xfde5380c;
   0xa4beea44; 0x4bdecfa9; 0xf6bb4b60; 0xbebfbc70;
   0x289b7ec6; 0xeaa127fa; 0xd4ef3085; 0x04881d05;
   0xd9d4d039; 0xe6db99e5; 0x1fa27cf8; 0xc4ac5665;
   0xf4292244; 0x432aff97; 0xab9423a7; 0xfc93a039;
   0x655b59c3; 0x8f0ccc92; 0xffeff47d; 0x85845dd1;
   0x6fa87e4f; 0xfe2ce6e0; 0xa3014314; 0x4e0811a1;
   0xf7537e82; 0xbd3af235; 0x2ad7d2bb; 0xeb86d391].

Definition at_ (l : list Z) (i : Z) : Z := nth (Z.to_nat i) l 0.

(** [n] bytes of [x], least significant first. *)
Fixpoint le_bytes (n : nat) (x : Z) : list Z :=
  match n with
  | O => []
  | S n' => Z.land x 0xFF :: le_bytes n' (Z.shiftr x 8)
  end.

(** The 32-bit words of a byte string, four bytes each, little-endian. *)
Fixpoint le_words (bs : list Z) : list Z :=
  match bs with
  | b0 :: b1 :: b2 :: b3 :: rest =>
      Z.lor b0 (Z.lor (Z.shiftl b1 8) (Z.lor (Z.shiftl b2 16) (Z.shiftl b3 24)))
      :: le_words rest
  | _ => []
  end.

Definition pad (msg : list Z) : list Z :=
  let len := Z.of_nat (length msg) in
  msg ++ [0x80] ++ repeat 0 (Z.to_nat ((55 - len) mod 64))
      ++ le_bytes 8 (Z.land (8 * len) 0xFFFFFFFFFFFFFFFF).

Definition state : Type := Z * Z * Z * Z.

Definition init : state := (0x67452301, 0xefcdab89, 0x98badcfe, 0x10325476).

Definition round (M : list Z) (st : state) (i : Z) : state :=
  let '(A, B, C, D) := st in
  let '(F, g) :=
    if i <? 16 then (Z.lor (Z.land B C) (Z.land (not32 B) D), i)
    else if i <? 32 then
      (Z.lor (Z.land D B) (Z.land (not32 D) C), (5 * i + 1) mod 16)
    else if i <? 48 then (Z.lxor (Z.lxor B C) D, (3 * i + 5) mod 16)
    else (Z.lxor C (Z.lor B (not32 D)), (7 * i) mod 16) in
  let F := add32 (add32 (add32 F A) (at_ K_table i)) (at_ M g) in
  (D, add32 B (rotl32 F (at_ s_table i)), B, C).

Definition rounds : list Z := map Z.of_nat (seq 0 64).

Definition compress (st : state) (block : list Z) : state :=
  let '(a0, b0, c0, d0) := st in
  let '(A, B, C, D) := fold_left (round (le_words block)) rounds st in
  (add32 a0 A, add32 b0 B, add32 c0 C, add32 d0 D).

(** The 64-byte blocks of a padded message, [n] of them. *)
Fixpoint blocks (n : nat) (bs : list Z) : list (list Z) :=
  match n with
  | O => []
  | S n' => firstn 64 bs :: blocks n' (skipn 64 bs)
  end.

Definition digest (msg : list Z) : list Z :=
  let padded := pad msg in
  let '(a, b, c, d) :=
    fold_left compress (blocks (length padded / 64) padded) init in
  le_bytes 4 a ++ le_bytes 4 b ++ le_bytes 4 c ++ le_bytes 4 d.

Definition hex_digit (d : Z) : ascii :=
  ascii_of_N (Z.to_N (if d <? 10 then 48 + d else 87 + d)).

Fixpoint hex (bs : list Z) : string :=
  match bs with
  | [] => EmptyString
  | b :: rest =>
      String (hex_digit (Z.shiftr b 4)) (String (hex_digit (Z.land b 0xF)) (hex rest))
  end.

(** [hashlib.md5(content).hexdigest()] *)
Definition hexdigest (content : list Z) : string := hex (digest content).

(** [s.encode("utf-8")] on the Latin-1 range: one byte below 128, two
    bytes from 128 on. *)
Fixpoint encode_utf8 (s : string) : list Z :=
  match s with
  | EmptyString => []
  | String c s' =>
      let n := Z.of_N (N_of_ascii c) in
      (if n <? 128 then [n]
       else [Z.lor 0xC0 (Z.shiftr n 6); Z.lor 0x80 (Z.land n 0x3F)])
      ++ encode_utf8 s'
  end.
End MD5.

(* ===================================================================== *)
(** * models/offers.py                                                    *)
(* ===================================================================== *)

Module Offers.

(** The dataclass.  [posted_date] holds what the scraper puts there: the
    raw text of the [datetime] attribute. *)
Record JobOffer : Type := mkJobOffer {
  title : option string;
  company_name : option string;
  location : option string;
  posted_date : option string;
  url : option string;
  description : option string
}.

(** [str(v)] of an [Optional[str]], as an f-string field formats it. *)
Definition str (v : option string) : string :=
  match v with
  | Some s => s
  | None => "None"
  end.

Definition get_hash (self : JobOffer) : string :=
  let content :=
    MD5.encode_utf8
      (str (company_name self) +:+ str (title self) +:+ str (location self)) in
  MD5.hexdigest content.

(** The bytes that [get_hash] digests, with the absent fields spelled out. *)
Definition content (r : JobOffer) : list Z :=
  MD5.encode_utf8
    (default "None" (company_name r) +:+ default "None" (title r)
     +:+ default "None" (location r)).

End Offers.

(* ===================================================================== *)
(** * scraper/scraper.py                                                  *)
(* ===================================================================== *)

Module Scraper.
Import Text Offers.

(** A posting card ([bs4.element.Tag]), seen through the five queries the
    scraper makes of it.  [None] is the [None] that [card.find] returns.
    - [h3_title]: [.text] of [find("h3", class_="base-search-card__title")]
    - [h4_subtitle]: [.text] of [find("h4", class_="base-search-card__subtitle")]
    - [span_location]: [.text] of [find("span", class_="job-search-card__location")]
    - [a_full_link]: [find("a", class_="base-card__full-link")], as the
      value of [.get("href")] on it
    - [time_tag]: [find("time")], as the value of [.get("datetime")] *)
Record Tag : Type := mkTag {
  h3_title : option string;
  h4_subtitle : option string;
  span_location : option string;
  a_full_link : option (option string);
  time_tag : option (option string)
}.

(** The two sets and the tuple of [_filter_cards].  A Python set has no
    order of its own; [any] does not depend on one ([any_Permutation]). *)
Definition included_keywords : list string :=
  ["backend"; "cloud"; "devops"; "engineering"; "platform";
   "site reliability"; "software"; "developer"; "engineer"].

Definition excluded_keywords : list string :=
  ["marketing"; "sales"; "business"; "finance"; "accounting"; "hr";
   "human resources"; "recruiter"; "customer"; "support"; "service";
   "content"; "design"; "product manager"; "project manager";
   "operations"].

Definition pos : list string := ["intern"; "apprentice"; "internship"].

Definition _filter_cards (card : Tag) : bool :=
  match h3_title card with
  | None => false
  | Some text =>
      let title_text := lower (strip text) in
      if any (fun p => contains p title_text) pos
         && any (fun keyword => contains keyword title_text) included_keywords
      then
        if any (fun role => contains role title_text) excluded_keywords
        then false
        else true
      else false
  end.

Definition none_has_no_text : exn :=
  AttributeError "'NoneType' object has no attribute 'text'".

(** [found.text], where [found] is what [card.find] returned. *)
Definition text_of (found : option string) : result string :=
  match found with
  | Some t => Ok t
  | None => Raise none_has_no_text
  end.

(** [elem.get(attr) if elem else None] *)
Definition attr_of (found : option (option string)) : option string :=
  match found with
  | Some value => value
  | None => None
  end.

Definition _parse_job_card (card : Tag) : result JobOffer :=
  try! title <- text_of (h3_title card);
  try! name <- text_of (h4_subtitle card);
  try! location <- text_of (span_location card);
  let url := attr_of (a_full_link card) in
  let posted_date := attr_of (time_tag card) in
  Ok {| title := Some (strip title);
        company_name := Some (strip name);
        location := Some (strip location);
        url := url;
        posted_date := posted_date;
        description := None |}.

Definition _format_keywords (keywords : string) : string :=
  replace_char " " "%20" keywords.

(** The values [fetch_jobs] may be called with. *)
Inductive pyval : Type :=
| PyStr (s : string)
| PyInt (n : Z)
| PyNone.

Definition isinstance_str (x : pyval) : bool :=
  match x with
  | PyStr _ => true
  | _ => false
  end.

(** The text of a value that passed [isinstance(x, str)]. *)
Definition as_str (x : pyval) : string :=
  match x with
  | PyStr s => s
  | _ => ""
  end.

(** What the scraper reads of a response: its status and the cards that
    [soup.find_all("div", class_="job-search-card")] finds in its body. *)
Record ClientResponse : Type := mkResponse {
  status : Z;
  cards : list Tag
}.

(** [session.get(url, ...)] answers or raises. *)
Inductive get_outcome : Type :=
| Responds (response : ClientResponse)
| Fails (err : exn).

Definition ClientSession : Type := string -> get_outcome.

(** The network requests a call makes, in order. *)
Inductive request : Type :=
| GET (url : string).

Definition parsing_error (err : exn) : exn :=
  ParsingError "Error while parsing job card" err.

(** The [for card in cards] loop, with its two accumulators. *)
Fixpoint scan (cards : list Tag) (jobs : list JobOffer) (filtered : nat)
  : result (list JobOffer * nat) :=
  match cards with
  | [] => Ok (jobs, filtered)
  | card :: rest =>
      if negb (_filter_cards card) then scan rest jobs (S filtered)
      else
        match _parse_job_card card with
        | Ok job => scan rest (jobs ++ [job]) filtered
        | Raise err => Raise (parsing_error err)
        end
  end.

Definition request_url (host keywords geo_id : string) : string :=
  host +:+ "/?keywords=" +:+ keywords +:+ "&geoId=" +:+ geo_id.

(** [fetch_jobs], with [self.host] as [host].  The result is paired with
    the requests made.  Printing and logging are left out. *)
Definition fetch_jobs (host : string) (location : pyval * pyval)
    (keywords : pyval) (session : option ClientSession)
  : list request * result (list JobOffer) :=
  let '(geo_id, country) := location in
  if negb (forallb isinstance_str [geo_id; country; keywords])
  then ([], Raise (TypeError "'location' and 'keywords' have to be str"))
  else
    let keywords := _format_keywords (as_str keywords) in
    let url := request_url host keywords (as_str geo_id) in
    match session with
    | None =>
        ([], Raise (AttributeError "'NoneType' object has no attribute 'get'"))
    | Some session =>
        ([GET url],
         match session url with
         | Fails err => Raise err
         | Responds response =>
             if negb (status response =? 200)%Z
             then Raise (ScrapingError ("Error while requesting " +:+ url))
             else
               try! found <- scan (cards response) [] 0;
               Ok (fst found)
         end)
    end.

End Scraper.

(* ===================================================================== *)
(** * repository/jobs.py                                                  *)
(* ===================================================================== *)

Module Repository.
Import Offers.

(** Modelled from the spec: the class [JobRepository] of
    [repository/jobs.py], which is not among the sources.  The store is
    "a mapping from identity_hash to Record, keys unique", "empty at
    start". *)
Definition empty : gmap string JobOffer := ∅.

(** Modelled from the spec: one iteration of [JobRepository.add_jobs],
    "for each record, compute identity_hash; if not already present,
    insert".  The number is 1 when the record was inserted. *)
Definition add_job (repo : gmap string JobOffer) (job : JobOffer)
  : gmap string JobOffer * nat :=
  let h := get_hash job in
  match repo !! h with
  | Some _ => (repo, 0)
  | None => (<[h := job]> repo, 1)
  end.

(** Modelled from the spec: the body of the loop of [add_jobs], on the
    store and the count of new records so far. *)
Definition step (acc : gmap string JobOffer * nat) (job : JobOffer)
  : gmap string JobOffer * nat :=
  let '(r, n) := add_job acc.1 job in (r, acc.2 + n).

(** Modelled from the spec: [JobRepository.add_jobs], which "returns
    (new_count, total_count_after)"; the store after the call comes
    with them. *)
Definition add_jobs (repo : gmap string JobOffer) (jobs : list JobOffer)
  : (nat * nat) * gmap string JobOffer :=
  let '(repo', new_count) := fold_left step jobs (repo, 0) in
  ((new_count, size repo'), repo').

(** Modelled from the spec: [JobRepository.get_all_jobs], "the current
    full set of stored Records"; here in the order of the keys. *)
Definition get_all_jobs (repo : gmap string JobOffer) : list JobOffer :=
  (map_to_list repo).*2.

End Repository.

(* ===================================================================== *)
(** * main.py                                                             *)
(* ===================================================================== *)

Module Main.
Import Offers Scraper Repository.

(** What [main] does to the repository and to the export collaborator. *)
Inductive effect : Type :=
| AddJobs (jobs : list JobOffer)
| Export (all_jobs : list JobOffer).

(** The first task, in the order in which the tasks finish, that raised. *)
Fixpoint first_raised {A} (finished : list nat) (outcomes : list (result A))
  : option exn :=
  match finished with
  | [] => None
  | i :: later =>
      match nth_error outcomes i with
      | Some (Raise e) => Some e
      | _ => first_raised later outcomes
      end
  end.

(** The results of the tasks, in the order of the tasks. *)
Fixpoint collect {A} (outcomes : list (result A)) : result (list A) :=
  match outcomes with
  | [] => Ok []
  | Ok a :: rest => try! more <- collect rest; Ok (a :: more)
  | Raise e :: _ => Raise e
  end.

(** [await asyncio.gather] over the tasks: the first exception raised is
    propagated to the awaiter, otherwise the list of the results.
    [finished] is the order in which the scheduler completes the tasks. *)
Definition gather {A} (finished : list nat) (outcomes : list (result A))
  : result (list A) :=
  match first_raised finished outcomes with
  | Some e => Raise e
  | None => collect outcomes
  end.

(** The [for jobs in results] loop. *)
Definition merge (results : list (list JobOffer))
  : gmap string JobOffer * nat * list effect :=
  fold_left
    (fun acc jobs =>
       let '(repo, total_new_jobs, done) := acc in
       let '((new_jobs, _), repo') := add_jobs repo jobs in
       (repo', total_new_jobs + new_jobs, done ++ [AddJobs jobs]))
    results (Repository.empty, 0, []).

(** A run of [main]: how it ends, the repository it leaves and what it
    did, in order. *)
Record run : Type := mkRun {
  outcome : result unit;
  repo : gmap string JobOffer;
  effects : list effect
}.

(** [main].  [HOST] and [LOCATIONS] are the constants of
    [utils/constants.py] ([LOCATIONS.items()] as a list of pairs);
    [network] is the session that [aiohttp.ClientSession()] opens. *)
Definition main (HOST : string) (LOCATIONS : list (string * string))
    (network : ClientSession) (finished : list nat) : run :=
  let tasks :=
    map (fun '(location, geo_id) =>
           fetch_jobs HOST (PyStr geo_id, PyStr location)
             (PyStr "Summer 2026") (Some network))
        LOCATIONS in
  match gather finished (map snd tasks) with
  | Raise e =>
      {| outcome := Raise e; repo := Repository.empty; effects := [] |}
  | Ok results =>
      let '(repo, _, done) := merge results in
      let all_jobs := get_all_jobs repo in
      {| outcome := Ok tt; repo := repo;
         effects := done ++ [Export all_jobs] |}
  end.

(** The call [main] makes for one entry of [LOCATIONS]. *)
Definition task (HOST : string) (network : ClientSession)
    (entry : string * string) : list request * result (list JobOffer) :=
  fetch_jobs HOST (PyStr entry.2, PyStr entry.1) (PyStr "Summer 2026")
    (Some network).

End Main.

(* ===================================================================== *)
(** * Views of the code used by the further properties                    *)
(* ===================================================================== *)

Module Views.
Import Text Offers Scraper.

(** The body of [_filter_cards], its tuple and its two sets as
    parameters. *)
Definition filter_with (positions included excluded : list string)
    (card : Tag) : bool :=
  match h3_title card with
  | None => false
  | Some text =>
      let title_text := lower (strip text) in
      if any (fun p => contains p title_text) positions
         && any (fun keyword => contains keyword title_text) included
      then
        if any (fun role => contains role title_text) excluded
        then false
        else true
      else false
  end.

(** A text without white space at either end. *)
Definition trimmed (s : string) : bool :=
  match s with
  | EmptyString => true
  | String _ _ => solid s
  end.

(** The number of occurrences of a character. *)
Fixpoint count_char (c : ascii) (s : string) : nat :=
  match s with
  | EmptyString => 0
  | String d s' => (if ascii_dec d c then 1 else 0) + count_char c s'
  end.

(** A digit of lower-case hexadecimal notation. *)
Definition is_hex_char (c : ascii) : bool :=
  let n := N_of_ascii c in
  (((48 <=? n) && (n <=? 57)) || ((97 <=? n) && (n <=? 102)))%N.

Fixpoint all_chars (f : ascii -> bool) (s : string) : bool :=
  match s with
  | EmptyString => true
  | String c s' => f c && all_chars f s'
  end.

(** A byte, as a number. *)
Definition is_byte (b : Z) : Prop := (0 <= b < 256)%Z.

(** The cards of a response that the filter keeps, and how many it drops. *)
Definition accepted (cards : list Tag) : list Tag :=
  List.filter _filter_cards cards.

Definition rejected (cards : list Tag) : nat :=
  length (List.filter (fun card => negb (_filter_cards card)) cards).

(** A title the filter rejects for the two letters "hr" inside a word. *)
Definition chrome_card : Tag :=
  mkTag (Some "Chrome Software Engineer Intern") (Some "Acme")
    (Some "Lisbon") None None.

(** The same title in two spellings. *)
Definition shouting_card : Tag :=
  mkTag (Some "  SOFTWARE ENGINEER INTERN") (Some "Acme") (Some "Lisbon")
    None None.

Definition quiet_card : Tag :=
  mkTag (Some "software engineer intern  ") None None None None.

End Views.

(* ===================================================================== *)
(** * Sample inputs                                                       *)
(* ===================================================================== *)

Module Samples.
Import Offers Scraper.

Definition host : string := "https://jobs.example/search".

(** A complete card. *)
Definition intern_card : Tag :=
  mkTag (Some "  Software Engineer Intern ") (Some " Acme ")
    (Some "Lisbon, Portugal") (Some (Some "https://jobs.example/view/1"))
    (Some (Some "2025-11-02")).

Definition intern_offer : JobOffer :=
  mkJobOffer (Some "Software Engineer Intern") (Some "Acme")
    (Some "Lisbon, Portugal") (Some "2025-11-02")
    (Some "https://jobs.example/view/1") None.

(** The same posting seen again, under another link and date. *)
Definition intern_offer_again : JobOffer :=
  mkJobOffer (Some "Software Engineer Intern") (Some "Acme")
    (Some "Lisbon, Portugal") (Some "2025-12-24")
    (Some "https://jobs.example/view/2") (Some "reposted").

(** A card without its title element. *)
Definition untitled_card : Tag :=
  mkTag None (Some "Acme") (Some "Porto") None None.

(** A card the filter accepts, without its company element. *)
Definition no_company_card : Tag :=
  mkTag (Some "DevOps Apprentice") None (Some "Porto") None None.

(** A card with neither link nor time element. *)
Definition bare_card : Tag :=
  mkTag (Some "Backend Developer Internship") (Some "Initech")
    (Some "Porto") None None.

Definition bare_offer : JobOffer :=
  mkJobOffer (Some "Backend Developer Internship") (Some "Initech")
    (Some "Porto") None None None.

(** A session that answers every request with the same response. *)
Definition serving (status : Z) (cards : list Tag) : ClientSession :=
  fun _ => Responds (mkResponse status cards).

(** A session that answers by the geoId at the end of the URL. *)
Definition by_location (table : list (string * get_outcome))
  : ClientSession :=
  fun url =>
    match find (fun entry => Text.contains (fst entry) url) table with
    | Some entry => snd entry
    | None => Fails (ClientError "no route")
    end.

(** Two locations: the first answers with two postings, the second with
    status 404. *)
Definition two_locations : list (string * string) :=
  [("Portugal", "100364837"); ("France", "105015875")].

Definition one_location_down : ClientSession :=
  by_location
    [("geoId=100364837", Responds (mkResponse 200 [intern_card; bare_card]));
     ("geoId=105015875", Responds (mkResponse 404 []))].

(** A card the filter rejects. *)
Definition marketing_card : Tag :=
  mkTag (Some "Marketing Intern") (Some "Acme") (Some "Paris") None None.

(** A second look at the first posting, from the other location. *)
Definition intern_card_again : Tag :=
  mkTag (Some "Software Engineer Intern") (Some "Acme")
    (Some "Lisbon, Portugal") (Some (Some "https://jobs.example/view/2"))
    (Some (Some "2025-12-24")).

Definition cloud_card : Tag :=
  mkTag (Some "Cloud Platform Intern") (Some "Globex") (Some "Lyon")
    None None.

Definition both_locations_up : ClientSession :=
  by_location
    [("geoId=100364837",
      Responds (mkResponse 200 [intern_card; marketing_card; bare_card]));
     ("geoId=105015875",
      Responds (mkResponse 200 [intern_card_again; cloud_card]))].

End Samples.

(* ===================================================================== *)
(** * Facts about text                                                    *)
(* ===================================================================== *)

Module TextFacts.
Import Text.

Lemma app_cons (c : ascii) (a b : string) :
  String c a +:+ b = String c (a +:+ b).
Proof. reflexivity. Qed.

Lemma app_nil_l (s : string) : "" +:+ s = s.
Proof. reflexivity. Qed.

Lemma app_nil_r (s : string) : s +:+ "" = s.
Proof.
  induction s as [|c s IH]; [reflexivity|]. now rewrite app_cons, IH.
Qed.

Lemma app_assoc (a b c : string) : (a +:+ b) +:+ c = a +:+ b +:+ c.
Proof.
  induction a as [|x a IH]; [reflexivity|]. now rewrite !app_cons, IH.
Qed.

Lemma startswith_iff (p s : string) :
  startswith p s = true <-> exists post, s = p +:+ post.
Proof.
  revert s. induction p as [|a p IH]; intros s.
  - destruct s; cbn; split; eauto.
  - destruct s as [|b s]; cbn.
    + split; [discriminate|]. intros [post H]. discriminate.
    + destruct (ascii_dec a b) as [->|Hne].
      * rewrite IH. split; intros [post H]; exists post.
        -- now rewrite app_cons, H.
        -- rewrite app_cons in H. now inversion H.
      * split; [discriminate|]. intros [post H].
        rewrite app_cons in H. inversion H. congruence.
Qed.

(** The [in] operator decides occurrence. *)
Lemma contains_iff (p s : string) : contains p s = true <-> Substring p s.
Proof.
  induction s as [|c s IH].
  - cbn [contains]. rewrite startswith_iff. split.
    + intros [post H]. exists "", post. exact H.
    + intros [pre [post H]]. destruct pre; [|discriminate].
      rewrite app_nil_l in H. eauto.
  - cbn [contains]. rewrite orb_true_iff, startswith_iff, IH. split.
    + intros [[post H]|[pre [post H]]].
      * exists "", post. exact H.
      * exists (String c pre), post. now rewrite app_cons, H.
    + intros [pre [post H]]. destruct pre as [|x pre].
      * left. exists post. exact H.
      * right. rewrite app_cons in H. inversion H. now exists pre, post.
Qed.

Lemma any_iff {A} (f : A -> bool) (xs : list A) :
  any f xs = true <-> exists x, In x xs /\ f x = true.
Proof. apply existsb_exists. Qed.

Lemma any_false_iff {A} (f : A -> bool) (xs : list A) :
  any f xs = false <-> forall x, In x xs -> f x = false.
Proof.
  unfold any. induction xs as [|y xs IH]; cbn.
  - split; [intros _ x []|reflexivity].
  - rewrite orb_false_iff, IH. split.
    + intros [Hy H] x [<-|Hx]; auto.
    + intros H. split; [apply H; now left|]. intros x Hx. apply H. now right.
Qed.

(** [any] over a set: the iteration order is immaterial. *)
Lemma any_Permutation {A} (f : A -> bool) (xs ys : list A) :
  Permutation xs ys -> any f xs = any f ys.
Proof.
  unfold any. induction 1; cbn; try congruence.
  destruct (f x), (f y); reflexivity.
Qed.

(** ** [lower] and [strip] commute *)

Lemma isspace_lower_char (c : ascii) : isspace (lower_char c) = isspace c.
Proof.
  destruct c as [[] [] [] [] [] [] [] []]; reflexivity.
Qed.

Lemma lower_lstrip (s : string) : lower (lstrip s) = lstrip (lower s).
Proof.
  induction s as [|c s IH]; [reflexivity|]. cbn.
  rewrite isspace_lower_char. destruct (isspace c); [exact IH|reflexivity].
Qed.

Lemma lower_rstrip (s : string) : lower (rstrip s) = rstrip (lower s).
Proof.
  induction s as [|c s IH]; [reflexivity|]. cbn.
  rewrite <- IH, isspace_lower_char.
  destruct (rstrip s); cbn; [destruct (isspace c)|]; reflexivity.
Qed.

Lemma lower_strip (s : string) : lower (strip s) = strip (lower s).
Proof. unfold strip. now rewrite lower_rstrip, lower_lstrip. Qed.

(** ** What [strip] leaves of a string *)

Lemma lstrip_suffix (s : string) : exists ws, s = ws +:+ lstrip s.
Proof.
  induction s as [|c s [ws IH]]; [now exists ""|]. cbn.
  destruct (isspace c).
  - exists (String c ws). now rewrite app_cons, <- IH.
  - now exists "".
Qed.

Lemma rstrip_prefix (s : string) : exists ws, s = rstrip s +:+ ws.
Proof.
  induction s as [|c s [ws IH]]; [now exists ""|]. cbn.
  destruct (rstrip s) as [|d r] eqn:E.
  - destruct (isspace c).
    + exists (String c ws). now rewrite IH.
    + exists ws. now rewrite IH.
  - exists ws. now rewrite app_cons, <- IH.
Qed.

Lemma Substring_strip_sub (p s : string) :
  Substring p (strip s) -> Substring p s.
Proof.
  unfold strip. intros [pre [post H]].
  destruct (lstrip_suffix s) as [w1 H1].
  destruct (rstrip_prefix (lstrip s)) as [w2 H2].
  exists (w1 +:+ pre), (post +:+ w2).
  rewrite H1 at 1. rewrite H2, H. now rewrite !app_assoc.
Qed.

Lemma lstrip_keeps (pre p post : string) (c : ascii) :
  head_char p = Some c -> isspace c = false ->
  exists pre', lstrip (pre +:+ p +:+ post) = pre' +:+ p +:+ post.
Proof.
  intros Hp Hc. destruct p as [|a p]; [discriminate|]. cbn in Hp.
  injection Hp as ->.
  induction pre as [|x pre [pre' IH]].
  - exists "". rewrite !app_nil_l, app_cons. cbn. now rewrite Hc.
  - rewrite app_cons. cbn [lstrip]. destruct (isspace x).
    + now exists pre'.
    + exists (String x pre). now rewrite app_cons.
Qed.

Lemma rstrip_solid_head (p post : string) (c : ascii) :
  last_char p = Some c -> isspace c = false ->
  exists post', rstrip (p +:+ post) = p +:+ post'.
Proof.
  intros Hp Hc. induction p as [|a p IH]; [discriminate|].
  destruct p as [|b p].
  - cbn in Hp. injection Hp as ->. rewrite app_cons, app_nil_l.
    cbn [rstrip]. rewrite Hc. destruct (rstrip post) as [|d r].
    + now exists "".
    + now exists (String d r).
  - destruct (IH Hp) as [post' E]. exists post'.
    rewrite app_cons. cbn [rstrip]. rewrite E.
    now rewrite !app_cons.
Qed.

Lemma rstrip_keeps (pre p post : string) (c : ascii) :
  last_char p = Some c -> isspace c = false ->
  exists post', rstrip (pre +:+ p +:+ post) = pre +:+ p +:+ post'.
Proof.
  intros Hp Hc. induction pre as [|x pre [post' IH]].
  - rewrite app_nil_l. eapply rstrip_solid_head; eauto.
  - exists post'. rewrite app_cons. cbn [rstrip]. rewrite IH.
    rewrite app_cons.
    destruct (pre +:+ p +:+ post') as [|d r] eqn:E; [|reflexivity].
    exfalso. destruct pre; [|discriminate]. rewrite app_nil_l in E.
    destruct p; discriminate.
Qed.

(** A solid keyword occurs in [s.strip()] exactly when it occurs in [s]. *)
Lemma Substring_strip (p s : string) :
  solid p = true -> (Substring p (strip s) <-> Substring p s).
Proof.
  intros Hs. split; [apply Substring_strip_sub|].
  unfold solid in Hs.
  destruct (head_char p) as [a|] eqn:Ha; [|discriminate].
  destruct (last_char p) as [b|] eqn:Hb; [|discriminate].
  apply andb_true_iff in Hs as [Hsa Hsb].
  apply negb_true_iff in Hsa, Hsb.
  intros [pre [post ->]]. unfold strip.
  destruct (lstrip_keeps pre p post a Ha Hsa) as [pre' ->].
  destruct (rstrip_keeps pre' p post b Hb Hsb) as [post' ->].
  now exists pre', post'.
Qed.

Lemma contains_lower_strip (p s : string) :
  solid p = true -> contains p (lower (strip s)) = contains p (lower s).
Proof.
  intros Hs. rewrite lower_strip.
  apply eq_true_iff_eq. rewrite !contains_iff. now apply Substring_strip.
Qed.

End TextFacts.

(* ===================================================================== *)
(** * The filter                                                          *)
(* ===================================================================== *)

Module FilterFacts.
Import Text TextFacts Scraper.

Lemma keywords_solid :
  forallb solid (pos ++ included_keywords ++ excluded_keywords) = true.
Proof. reflexivity. Qed.

Lemma any_ext_in {A} (f g : A -> bool) (xs : list A) :
  (forall x, In x xs -> f x = g x) -> any f xs = any g xs.
Proof.
  unfold any. induction xs as [|x xs IH]; intros H; [reflexivity|].
  cbn. rewrite (H x) by now left.
  rewrite IH; [reflexivity|]. intros y Hy. apply H. now right.
Qed.

(** Stripping the title changes nothing for the keywords of the filter. *)
Lemma any_keyword_strip (kws : list string) (text : string) :
  incl kws (pos ++ included_keywords ++ excluded_keywords) ->
  any (fun k => contains k (lower (strip text))) kws
  = any (fun k => contains k (lower text)) kws.
Proof.
  intros Hin. apply any_ext_in. intros k Hk.
  apply contains_lower_strip.
  pose proof keywords_solid as Hs. rewrite forallb_forall in Hs.
  apply Hs, Hin, Hk.
Qed.

(** The filter as the three-clause conjunction over the raw title. *)
Lemma filter_cards_title (card : Tag) (text : string) :
  h3_title card = Some text ->
  _filter_cards card
  = any (fun p => contains p (lower text)) pos
    && any (fun k => contains k (lower text)) included_keywords
    && negb (any (fun x => contains x (lower text)) excluded_keywords).
Proof.
  intros H. unfold _filter_cards. rewrite H. cbv zeta.
  rewrite !any_keyword_strip.
  - destruct (any _ pos), (any _ included_keywords),
      (any _ excluded_keywords); reflexivity.
  - intros k Hk. apply in_or_app. right. apply in_or_app. now right.
  - intros k Hk. apply in_or_app. right. apply in_or_app. now left.
  - intros k Hk. apply in_or_app. now left.
Qed.

Lemma any_contains_iff (kws : list string) (s : string) :
  any (fun k => contains k s) kws = true
  <-> exists k, In k kws /\ Substring k s.
Proof.
  rewrite any_iff. split; intros [k [Hk H]]; exists k; split; auto;
    now apply contains_iff.
Qed.

Lemma none_contains_iff (kws : list string) (s : string) :
  negb (any (fun k => contains k s) kws) = true
  <-> forall k, In k kws -> ~ Substring k s.
Proof.
  rewrite negb_true_iff, any_false_iff. split; intros H k Hk.
  - intros Hsub. apply contains_iff in Hsub. rewrite (H k Hk) in Hsub.
    discriminate.
  - destruct (contains k s) eqn:E; [|reflexivity].
    exfalso. apply (H k Hk). now apply contains_iff.
Qed.

(** C1.  [_filter_cards] accepts a card if and only if the card has a
    title element whose text, lower-cased, contains one of the position
    terms and one of the included terms and none of the excluded terms,
    "contains" being plain occurrence as a substring; a card without a
    title element is rejected.  "Internal Software Engineer" is accepted
    and "Backend Engineer Intern (Content Team)" is rejected. *)
Theorem filter_cards_spec :
  (forall card : Tag,
     _filter_cards card = true <->
     exists text : string,
       h3_title card = Some text
       /\ (exists p, In p ["intern"; "apprentice"; "internship"]
                     /\ Substring p (lower text))
       /\ (exists k, In k ["backend"; "cloud"; "devops"; "engineering";
                           "platform"; "site reliability"; "software";
                           "developer"; "engineer"]
                     /\ Substring k (lower text))
       /\ (forall x, In x ["marketing"; "sales"; "business"; "finance";
                           "accounting"; "hr"; "human resources";
                           "recruiter"; "customer"; "support"; "service";
                           "content"; "design"; "product manager";
                           "project manager"; "operations"]
                     -> ~ Substring x (lower text)))
  /\ (forall sub loc link time,
        _filter_cards (mkTag None sub loc link time) = false)
  /\ (forall sub loc link time,
        _filter_cards
          (mkTag (Some "Internal Software Engineer") sub loc link time)
        = true)
  /\ (forall sub loc link time,
        _filter_cards
          (mkTag (Some "Backend Engineer Intern (Content Team)")
             sub loc link time)
        = false).
Proof.
  split; [|repeat split; intros; reflexivity].
  intros card. destruct (h3_title card) as [text|] eqn:Ht.
  - rewrite (filter_cards_title card text Ht), !andb_true_iff.
    rewrite !any_contains_iff, none_contains_iff.
    split.
    + intros [[Hp Hk] Hx]. exists text. auto.
    + intros [text' [E [Hp [Hk Hx]]]]. injection E as <-. auto.
  - unfold _filter_cards. rewrite Ht. split; [discriminate|].
    intros [text [E _]]. discriminate.
Qed.

(** The truth table of the specification. *)
Example filter_truth_table :
  map (fun text => _filter_cards (mkTag (Some text) None None None None))
    ["Software Engineer Intern"; "Marketing Intern";
     "Backend Engineer Intern (Content Team)"; "Software Engineer";
     "DevOps Apprentice"; "  SOFTWARE developer INTERNSHIP  "]
  = [true; false; false; false; true; true].
Proof. reflexivity. Qed.

End FilterFacts.

(* ===================================================================== *)
(** * The identity hash                                                   *)
(* ===================================================================== *)

Module OfferFacts.
Import Offers.

(** The digest of the three examples of RFC 1321 that fit the model. *)
Example md5_empty :
  MD5.hexdigest (MD5.encode_utf8 "") = "d41d8cd98f00b204e9800998ecf8427e".
Proof. vm_compute. reflexivity. Qed.

Example md5_abc :
  MD5.hexdigest (MD5.encode_utf8 "abc") = "900150983cd24fb0d6963f7d28e17f72".
Proof. vm_compute. reflexivity. Qed.

Example md5_two_blocks :
  MD5.hexdigest (MD5.encode_utf8
    "12345678901234567890123456789012345678901234567890123456789012345678901234567890")
  = "57edf4a22be3c955ac49da2e2107b67a".
Proof. vm_compute. reflexivity. Qed.

Lemma get_hash_content (r : JobOffer) :
  get_hash r = MD5.hexdigest (content r).
Proof. unfold get_hash, content. now destruct r as [[?|] [?|] [?|] ? ? ?]. Qed.

(** C2.  [get_hash] is the MD5 digest of the UTF-8 bytes of
    company_name, title and location concatenated in that order, an
    absent field counting as the text "None"; so two records with the
    same three fields have the same hash, whatever their url,
    posted_date and description. *)
Theorem get_hash_deterministic (r1 r2 : JobOffer)
    (Hcompany : company_name r1 = company_name r2)
    (Htitle : title r1 = title r2)
    (Hlocation : location r1 = location r2) :
  get_hash r1
  = MD5.hexdigest
      (MD5.encode_utf8
         (default "None" (company_name r1) +:+ default "None" (title r1)
          +:+ default "None" (location r1)))
  /\ get_hash r1 = get_hash r2.
Proof.
  split; [apply get_hash_content|].
  rewrite !get_hash_content. unfold content.
  now rewrite Hcompany, Htitle, Hlocation.
Qed.

Lemma get_hash_deterministic_witness :
  (url Samples.intern_offer <> url Samples.intern_offer_again
   /\ posted_date Samples.intern_offer
      <> posted_date Samples.intern_offer_again)
  /\ get_hash Samples.intern_offer = get_hash Samples.intern_offer_again.
Proof.
  split; [split; discriminate|].
  exact (proj2 (get_hash_deterministic Samples.intern_offer
                  Samples.intern_offer_again eq_refl eq_refl eq_refl)).
Defined.

(** C9.  [get_hash] is not injective on (company_name, title, location):
    the fields are concatenated without a separator, so company "AB" with
    title "C" hashes like company "A" with title "BC", and a company that
    is the text "None" hashes like an absent company. *)
Theorem get_hash_not_injective :
  (exists r1 r2 : JobOffer,
      (company_name r1, title r1, location r1)
      <> (company_name r2, title r2, location r2)
      /\ get_hash r1 = get_hash r2)
  /\ (forall loc date link desc,
        get_hash (mkJobOffer (Some "C") (Some "AB") loc date link desc)
        = get_hash (mkJobOffer (Some "BC") (Some "A") loc date link desc))
  /\ (forall t loc date link desc,
        get_hash (mkJobOffer t (Some "None") loc date link desc)
        = get_hash (mkJobOffer t None loc date link desc)).
Proof.
  assert (Hcat : forall loc date link desc,
             get_hash (mkJobOffer (Some "C") (Some "AB") loc date link desc)
             = get_hash (mkJobOffer (Some "BC") (Some "A") loc date link desc))
    by (intros; reflexivity).
  split; [|split; [exact Hcat|intros; reflexivity]].
  exists (mkJobOffer (Some "C") (Some "AB") None None None None),
         (mkJobOffer (Some "BC") (Some "A") None None None None).
  split; [discriminate|apply Hcat].
Qed.

End OfferFacts.

(* ===================================================================== *)
(** * The parser and the fetcher                                          *)
(* ===================================================================== *)

Module ScraperFacts.
Import Text Offers Scraper.

(** ** [_parse_job_card] *)

(** The only way extraction fails. *)
Lemma parse_job_card_raises (card : Tag) (err : exn) :
  _parse_job_card card = Raise err -> err = none_has_no_text.
Proof.
  unfold _parse_job_card, text_of.
  destruct (h3_title card), (h4_subtitle card), (span_location card);
    cbn; congruence.
Qed.

Lemma parse_job_card_missing (card : Tag) :
  h3_title card = None \/ h4_subtitle card = None \/ span_location card = None ->
  _parse_job_card card = Raise none_has_no_text.
Proof.
  unfold _parse_job_card, text_of.
  intros [H|[H|H]]; rewrite H;
    destruct (h3_title card), (h4_subtitle card), (span_location card);
    cbn; congruence.
Qed.

Lemma parse_job_card_present (card : Tag) (t n l : string) :
  h3_title card = Some t -> h4_subtitle card = Some n ->
  span_location card = Some l ->
  _parse_job_card card
  = Ok (mkJobOffer (Some (strip t)) (Some (strip n)) (Some (strip l))
          (attr_of (time_tag card)) (attr_of (a_full_link card)) None).
Proof.
  intros Ht Hn Hl. unfold _parse_job_card. now rewrite Ht, Hn, Hl.
Qed.

(** ** The loop over the cards *)

(** A rejected card leaves the jobs as they are. *)
Lemma scan_rejected (card : Tag) (rest : list Tag) (jobs : list JobOffer)
    (filtered : nat) :
  _filter_cards card = false ->
  scan (card :: rest) jobs filtered = scan rest jobs (S filtered).
Proof. intros H. cbn. now rewrite H. Qed.

(** The jobs found do not depend on the count of the filtered cards. *)
Lemma scan_filtered_irrelevant (cards : list Tag) :
  forall (jobs : list JobOffer) (f1 f2 : nat),
    (try! found <- scan cards jobs f1; Ok (fst found))
    = (try! found <- scan cards jobs f2; Ok (fst found)).
Proof.
  induction cards as [|card rest IH]; intros jobs f1 f2; [reflexivity|].
  cbn. destruct (_filter_cards card); cbn.
  - destruct (_parse_job_card card); [apply IH|reflexivity].
  - apply IH.
Qed.

(** The loop fails as soon as an accepted card fails to parse: with the
    cause of the first such card. *)
Lemma scan_raises (cards : list Tag) :
  forall (jobs : list JobOffer) (filtered : nat) (card : Tag) (err : exn),
    In card cards -> _filter_cards card = true ->
    _parse_job_card card = Raise err ->
    exists card' cause,
      In card' cards /\ _filter_cards card' = true
      /\ _parse_job_card card' = Raise cause
      /\ scan cards jobs filtered = Raise (parsing_error cause).
Proof.
  induction cards as [|c rest IH]; intros jobs filtered card err Hin Hacc Herr;
    [destruct Hin|].
  cbn [scan]. destruct (_filter_cards c) eqn:Hc; cbn [negb].
  - destruct (_parse_job_card c) as [job|e] eqn:Hp.
    + destruct Hin as [->|Hin]; [congruence|].
      destruct (IH (jobs ++ [job]) filtered card err Hin Hacc Herr)
        as (c' & cause & H1 & H2 & H3 & H4).
      exists c', cause. repeat split; auto. now right.
    + exists c, e. repeat split; auto. now left.
  - destruct Hin as [->|Hin]; [congruence|].
    destruct (IH jobs (S filtered) card err Hin Hacc Herr)
      as (c' & cause & H1 & H2 & H3 & H4).
    exists c', cause. repeat split; auto. now right.
Qed.

(** The loop raises nothing but parsing errors. *)
Lemma scan_raises_only_parsing (cards : list Tag) :
  forall (jobs : list JobOffer) (filtered : nat) (e : exn),
    scan cards jobs filtered = Raise e ->
    e = parsing_error none_has_no_text.
Proof.
  induction cards as [|c rest IH]; intros jobs filtered e; [discriminate|].
  cbn [scan]. destruct (_filter_cards c); cbn [negb]; [|apply IH].
  destruct (_parse_job_card c) as [job|err] eqn:Hp; [apply IH|].
  intros [= <-]. now rewrite (parse_job_card_raises c err Hp).
Qed.

(** ** [fetch_jobs] on text arguments *)

Lemma fetch_jobs_text (host geo_id country keywords : string)
    (session : ClientSession) :
  fetch_jobs host (PyStr geo_id, PyStr country) (PyStr keywords) (Some session)
  = let url := request_url host (_format_keywords keywords) geo_id in
    ([GET url],
     match session url with
     | Fails err => Raise err
     | Responds response =>
         if (status response =? 200)%Z
         then try! found <- scan (cards response) [] 0; Ok (fst found)
         else Raise (ScrapingError ("Error while requesting " +:+ url))
     end).
Proof.
  unfold fetch_jobs. cbn [forallb isinstance_str andb negb as_str]. cbv zeta.
  f_equal. destruct (session _) as [response|err]; [|reflexivity].
  now destruct (status response =? 200)%Z.
Qed.

Lemma fetch_jobs_not_200 (host geo_id country keywords : string)
    (session : ClientSession) (response : ClientResponse) :
  session (request_url host (_format_keywords keywords) geo_id)
  = Responds response ->
  status response <> 200%Z ->
  fetch_jobs host (PyStr geo_id, PyStr country) (PyStr keywords) (Some session)
  = ([GET (request_url host (_format_keywords keywords) geo_id)],
     Raise (ScrapingError
              ("Error while requesting "
               +:+ request_url host (_format_keywords keywords) geo_id))).
Proof.
  intros Hget Hstatus. rewrite fetch_jobs_text. cbv zeta. rewrite Hget.
  apply Z.eqb_neq in Hstatus. now rewrite Hstatus.
Qed.

Lemma fetch_jobs_200 (host geo_id country keywords : string)
    (session : ClientSession) (response : ClientResponse) :
  session (request_url host (_format_keywords keywords) geo_id)
  = Responds response ->
  status response = 200%Z ->
  fetch_jobs host (PyStr geo_id, PyStr country) (PyStr keywords) (Some session)
  = ([GET (request_url host (_format_keywords keywords) geo_id)],
     try! found <- scan (cards response) [] 0; Ok (fst found)).
Proof.
  intros Hget Hstatus. rewrite fetch_jobs_text. cbv zeta.
  now rewrite Hget, Hstatus.
Qed.

(** A card without title is passed over: the jobs are those of the
    other cards. *)
Lemma scan_skips_untitled (card : Tag) (after : list Tag) :
  h3_title card = None ->
  forall (before : list Tag) (jobs : list JobOffer) (filtered : nat),
    (try! found <- scan (before ++ card :: after) jobs filtered; Ok (fst found))
    = (try! found <- scan (before ++ after) jobs filtered; Ok (fst found)).
Proof.
  intros Hnone.
  assert (Hrej : _filter_cards card = false)
    by (unfold _filter_cards; now rewrite Hnone).
  induction before as [|c before IH]; intros jobs filtered.
  - cbn [app]. rewrite scan_rejected by exact Hrej.
    apply scan_filtered_irrelevant.
  - cbn [app scan]. destruct (_filter_cards c); cbn [negb]; [|apply IH].
    destruct (_parse_job_card c); [apply IH|reflexivity].
Qed.

(** An accepted card that fails to parse makes the call fail. *)
Lemma fetch_jobs_accepted_unparsed (host geo_id country keywords : string)
    (cards : list Tag) (card : Tag) :
  _filter_cards card = true ->
  _parse_job_card card = Raise none_has_no_text ->
  In card cards ->
  snd (fetch_jobs host (PyStr geo_id, PyStr country) (PyStr keywords)
         (Some (Samples.serving 200 cards)))
  = Raise (parsing_error none_has_no_text).
Proof.
  intros Hacc Hparse Hin.
  rewrite fetch_jobs_text. cbn.
  destruct (scan_raises cards [] 0 card _ Hin Hacc Hparse)
    as (c' & cause & _ & _ & Hc & ->).
  now rewrite (parse_job_card_raises c' cause Hc).
Qed.

(** ** The claims on [fetch_jobs] *)

(** C3.  When the response has status 200 and one of its cards is
    accepted by the filter and fails to parse, [fetch_jobs] raises a
    [ParsingError] whose cause is the failure of extraction on an
    accepted card of the response; it returns no list, whatever the other
    cards are. *)
Theorem fetch_jobs_parsing_error_aborts
    (host geo_id country keywords : string) (session : ClientSession)
    (response : ClientResponse) (card : Tag) (err : exn)
    (Hget : session (request_url host (_format_keywords keywords) geo_id)
            = Responds response)
    (Hstatus : status response = 200%Z)
    (Hin : In card (cards response))
    (Haccepted : _filter_cards card = true)
    (Hfails : _parse_job_card card = Raise err) :
  exists (card' : Tag) (cause : exn),
    In card' (cards response)
    /\ _filter_cards card' = true
    /\ _parse_job_card card' = Raise cause
    /\ fetch_jobs host (PyStr geo_id, PyStr country) (PyStr keywords)
         (Some session)
       = ([GET (request_url host (_format_keywords keywords) geo_id)],
          Raise (ParsingError "Error while parsing job card" cause))
    /\ forall jobs : list JobOffer,
         snd (fetch_jobs host (PyStr geo_id, PyStr country) (PyStr keywords)
                (Some session))
         <> Ok jobs.
Proof.
  destruct (scan_raises (cards response) [] 0 card err Hin Haccepted Hfails)
    as (card' & cause & H1 & H2 & H3 & H4).
  exists card', cause.
  rewrite (fetch_jobs_200 _ _ _ _ _ _ Hget Hstatus), H4.
  repeat split; auto; intros; discriminate.
Qed.

Lemma fetch_jobs_parsing_error_aborts_witness :
  In Samples.no_company_card
     [Samples.intern_card; Samples.no_company_card; Samples.bare_card]
  /\ _parse_job_card Samples.intern_card = Ok Samples.intern_offer
  /\ _parse_job_card Samples.bare_card = Ok Samples.bare_offer
  /\ snd (fetch_jobs Samples.host (PyStr "100364837", PyStr "Portugal")
            (PyStr "Summer 2026")
            (Some (Samples.serving 200
                     [Samples.intern_card; Samples.no_company_card;
                      Samples.bare_card])))
     = Raise (ParsingError "Error while parsing job card"
                (AttributeError "'NoneType' object has no attribute 'text'")).
Proof.
  split; [right; left; reflexivity|].
  split; [reflexivity|]. split; [reflexivity|].
  destruct (fetch_jobs_parsing_error_aborts Samples.host "100364837"
              "Portugal" "Summer 2026"
              (Samples.serving 200
                 [Samples.intern_card; Samples.no_company_card;
                  Samples.bare_card])
              (mkResponse 200
                 [Samples.intern_card; Samples.no_company_card;
                  Samples.bare_card])
              Samples.no_company_card none_has_no_text
              eq_refl eq_refl (or_intror (or_introl eq_refl))
              eq_refl eq_refl)
    as (card' & cause & _ & _ & Hcause & Hfetch & _).
  rewrite Hfetch. cbn [snd].
  now rewrite (parse_job_card_raises card' cause Hcause).
Defined.

(** C5.  When the response has a status outside 200..299, [fetch_jobs]
    raises a [ScrapingError] whose message carries the requested URL, and
    returns no records. *)
Theorem fetch_jobs_non_2xx_raises
    (host geo_id country keywords : string) (session : ClientSession)
    (response : ClientResponse)
    (Hget : session (request_url host (_format_keywords keywords) geo_id)
            = Responds response)
    (Hstatus : ~ (200 <= status response < 300)%Z) :
  fetch_jobs host (PyStr geo_id, PyStr country) (PyStr keywords) (Some session)
  = ([GET (host +:+ "/?keywords=" +:+ _format_keywords keywords
           +:+ "&geoId=" +:+ geo_id)],
     Raise (ScrapingError
              ("Error while requesting "
               +:+ (host +:+ "/?keywords=" +:+ _format_keywords keywords
                    +:+ "&geoId=" +:+ geo_id)))).
Proof.
  apply (fetch_jobs_not_200 _ _ _ _ _ _ Hget). lia.
Qed.

Lemma fetch_jobs_non_2xx_raises_witness :
  ~ (200 <= 404 < 300)%Z
  /\ fetch_jobs Samples.host (PyStr "100364837", PyStr "Portugal")
       (PyStr "Summer 2026")
       (Some (Samples.serving 404 [Samples.intern_card]))
     = ([GET "https://jobs.example/search/?keywords=Summer%202026&geoId=100364837"],
        Raise (ScrapingError
                 "Error while requesting https://jobs.example/search/?keywords=Summer%202026&geoId=100364837")).
Proof.
  split; [lia|].
  apply (fetch_jobs_non_2xx_raises Samples.host "100364837" "Portugal"
           "Summer 2026" (Samples.serving 404 [Samples.intern_card])
           (mkResponse 404 [Samples.intern_card]) eq_refl).
  cbn [status]. lia.
Defined.

(** C10.  Whatever the response, [fetch_jobs] raises a [ScrapingError]
    when its status is not 200, also for another status of the 2xx range
    such as 201 or 204; with status 200 it goes on to the cards and its
    result is that of the loop over them, never a [ScrapingError]. *)
Theorem fetch_jobs_only_200_parses
    (host geo_id country keywords : string) (session : ClientSession)
    (response : ClientResponse)
    (Hget : session (request_url host (_format_keywords keywords) geo_id)
            = Responds response) :
  (status response <> 200%Z ->
   snd (fetch_jobs host (PyStr geo_id, PyStr country) (PyStr keywords)
          (Some session))
   = Raise (ScrapingError
              ("Error while requesting "
               +:+ request_url host (_format_keywords keywords) geo_id)))
  /\ (status response = 200%Z ->
      snd (fetch_jobs host (PyStr geo_id, PyStr country) (PyStr keywords)
             (Some session))
      = (try! found <- scan (cards response) [] 0; Ok (fst found))
      /\ forall msg : string,
           snd (fetch_jobs host (PyStr geo_id, PyStr country)
                  (PyStr keywords) (Some session))
           <> Raise (ScrapingError msg)).
Proof.
  split; intros Hstatus.
  - now rewrite (fetch_jobs_not_200 _ _ _ _ _ _ Hget Hstatus).
  - rewrite (fetch_jobs_200 _ _ _ _ _ _ Hget Hstatus). cbn [snd].
    split; [reflexivity|]. intros msg.
    destruct (scan (cards response) [] 0) as [found|e] eqn:Hscan;
      [discriminate|].
    rewrite (scan_raises_only_parsing _ _ _ _ Hscan). discriminate.
Qed.

Lemma fetch_jobs_only_200_parses_witness :
  snd (fetch_jobs Samples.host (PyStr "100364837", PyStr "Portugal")
         (PyStr "Summer 2026")
         (Some (Samples.serving 201 [Samples.intern_card])))
  = Raise (ScrapingError
             "Error while requesting https://jobs.example/search/?keywords=Summer%202026&geoId=100364837")
  /\ snd (fetch_jobs Samples.host (PyStr "100364837", PyStr "Portugal")
            (PyStr "Summer 2026")
            (Some (Samples.serving 204 [Samples.intern_card])))
     = Raise (ScrapingError
                "Error while requesting https://jobs.example/search/?keywords=Summer%202026&geoId=100364837")
  /\ snd (fetch_jobs Samples.host (PyStr "100364837", PyStr "Portugal")
            (PyStr "Summer 2026")
            (Some (Samples.serving 200 [Samples.intern_card])))
     = Ok [Samples.intern_offer].
Proof.
  split; [|split].
  - apply (proj1 (fetch_jobs_only_200_parses Samples.host "100364837"
                    "Portugal" "Summer 2026"
                    (Samples.serving 201 [Samples.intern_card])
                    (mkResponse 201 [Samples.intern_card]) eq_refl)).
    cbn [status]. lia.
  - apply (proj1 (fetch_jobs_only_200_parses Samples.host "100364837"
                    "Portugal" "Summer 2026"
                    (Samples.serving 204 [Samples.intern_card])
                    (mkResponse 204 [Samples.intern_card]) eq_refl)).
    cbn [status]. lia.
  - apply (proj1 (proj2 (fetch_jobs_only_200_parses Samples.host "100364837"
                    "Portugal" "Summer 2026"
                    (Samples.serving 200 [Samples.intern_card])
                    (mkResponse 200 [Samples.intern_card]) eq_refl)
                   eq_refl)).
Defined.

(** C6, as the code has it.  [fetch_jobs] requires the geo-identifier,
    the display name and the keywords to be text ([str]): when one of
    them is not, the call raises a [TypeError] and no request has been
    made.  Emptiness is not looked at: on text arguments, empty or not,
    the request is made. *)
Theorem fetch_jobs_refuses_non_text
    (host : string) (geo_id country keywords : pyval)
    (session : option ClientSession)
    (Hbad : isinstance_str geo_id = false
            \/ isinstance_str country = false
            \/ isinstance_str keywords = false) :
  fetch_jobs host (geo_id, country) keywords session
  = ([], Raise (TypeError "'location' and 'keywords' have to be str"))
  /\ forall (g c k : string) (s : ClientSession),
       fst (fetch_jobs host (PyStr g, PyStr c) (PyStr k) (Some s))
       = [GET (request_url host (_format_keywords k) g)].
Proof.
  split.
  - unfold fetch_jobs. cbn [forallb].
    destruct Hbad as [H|[H|H]]; rewrite H;
      destruct (isinstance_str geo_id), (isinstance_str country);
      reflexivity.
  - intros g c k s. now rewrite fetch_jobs_text.
Qed.

Lemma fetch_jobs_refuses_non_text_witness :
  fetch_jobs Samples.host (PyInt 100364837, PyStr "Portugal")
    (PyStr "Summer 2026") (Some (Samples.serving 200 [Samples.intern_card]))
  = ([], Raise (TypeError "'location' and 'keywords' have to be str"))
  /\ fetch_jobs Samples.host (PyStr "100364837", PyStr "Portugal")
       PyNone (Some (Samples.serving 200 [Samples.intern_card]))
     = ([], Raise (TypeError "'location' and 'keywords' have to be str")).
Proof.
  split.
  - exact (proj1 (fetch_jobs_refuses_non_text Samples.host
                    (PyInt 100364837) (PyStr "Portugal")
                    (PyStr "Summer 2026")
                    (Some (Samples.serving 200 [Samples.intern_card]))
                    (or_introl eq_refl))).
  - exact (proj1 (fetch_jobs_refuses_non_text Samples.host
                    (PyStr "100364837") (PyStr "Portugal") PyNone
                    (Some (Samples.serving 200 [Samples.intern_card]))
                    (or_intror (or_intror eq_refl)))).
Defined.

(** C6, as stated, fails: with the three arguments empty texts the call
    raises no type error; it makes its request and returns the jobs. *)
Lemma empty_text_is_not_refused :
  fetch_jobs Samples.host (PyStr "", PyStr "") (PyStr "")
    (Some (Samples.serving 200 [Samples.intern_card]))
  = ([GET "https://jobs.example/search/?keywords=&geoId="],
     Ok [Samples.intern_offer]).
Proof. vm_compute. reflexivity. Qed.

(** C4, as stated, fails: a card without its title element among the
    cards of a response does not make [fetch_jobs] fail; the card is
    filtered out and the jobs of the other cards are returned. *)
Lemma untitled_card_does_not_fail_fetch :
  h3_title Samples.untitled_card = None
  /\ _parse_job_card Samples.untitled_card
     = Raise (AttributeError "'NoneType' object has no attribute 'text'")
  /\ fetch_jobs Samples.host (PyStr "100364837", PyStr "Portugal")
       (PyStr "Summer 2026")
       (Some (Samples.serving 200
                [Samples.untitled_card; Samples.intern_card]))
     = ([GET "https://jobs.example/search/?keywords=Summer%202026&geoId=100364837"],
        Ok [Samples.intern_offer]).
Proof. repeat split; vm_compute; reflexivity. Qed.

(** C4, as the code has it.  For a card that lacks its title, company or
    location element, extraction ([_parse_job_card]) fails, with the
    attribute error of the absent element.  In [fetch_jobs] (status 200):
    when the element that lacks is the title, the filter rejects the
    card and the call gives what it gives without the card; when the
    filter accepts the card (so company or location lacks), the call
    fails with a [ParsingError] that has this attribute error as cause.
    A card with its three mandatory elements parses, and without link or
    time element its record has no url or posted_date. *)
Theorem parse_job_card_mandatory_fields
    (host geo_id country keywords : string) (before after : list Tag)
    (card : Tag)
    (Hmissing : h3_title card = None \/ h4_subtitle card = None
                \/ span_location card = None) :
  _parse_job_card card
  = Raise (AttributeError "'NoneType' object has no attribute 'text'")
  /\ (h3_title card = None ->
      _filter_cards card = false
      /\ snd (fetch_jobs host (PyStr geo_id, PyStr country) (PyStr keywords)
                (Some (Samples.serving 200 (before ++ card :: after))))
         = snd (fetch_jobs host (PyStr geo_id, PyStr country)
                  (PyStr keywords)
                  (Some (Samples.serving 200 (before ++ after)))))
  /\ (_filter_cards card = true ->
      snd (fetch_jobs host (PyStr geo_id, PyStr country) (PyStr keywords)
             (Some (Samples.serving 200 (before ++ card :: after))))
      = Raise (ParsingError "Error while parsing job card"
                 (AttributeError "'NoneType' object has no attribute 'text'")))
  /\ (forall (t n l : string) (link time : option (option string)),
        _parse_job_card (mkTag (Some t) (Some n) (Some l) link time)
        = Ok (mkJobOffer (Some (strip t)) (Some (strip n)) (Some (strip l))
                (attr_of time) (attr_of link) None))
  /\ attr_of None = None.
Proof.
  pose proof (parse_job_card_missing card Hmissing) as Hparse.
  split; [exact Hparse|]. split; [|split; [|split; reflexivity]].
  - intros Hnone. split; [unfold _filter_cards; now rewrite Hnone|].
    rewrite !fetch_jobs_text. cbn.
    apply scan_skips_untitled, Hnone.
  - intros Haccepted.
    apply (fetch_jobs_accepted_unparsed host geo_id country keywords
             (before ++ card :: after) card Haccepted Hparse).
    apply in_elt.
Qed.

Lemma parse_job_card_mandatory_fields_witness :
  (h4_subtitle Samples.no_company_card = None
   /\ _filter_cards Samples.no_company_card = true)
  /\ _parse_job_card Samples.no_company_card
     = Raise (AttributeError "'NoneType' object has no attribute 'text'")
  /\ snd (fetch_jobs Samples.host (PyStr "100364837", PyStr "Portugal")
            (PyStr "Summer 2026")
            (Some (Samples.serving 200
                     [Samples.intern_card; Samples.no_company_card;
                      Samples.bare_card])))
     = Raise (ParsingError "Error while parsing job card"
                (AttributeError "'NoneType' object has no attribute 'text'"))
  /\ snd (fetch_jobs Samples.host (PyStr "100364837", PyStr "Portugal")
            (PyStr "Summer 2026")
            (Some (Samples.serving 200
                     [Samples.intern_card; Samples.untitled_card;
                      Samples.bare_card])))
     = snd (fetch_jobs Samples.host (PyStr "100364837", PyStr "Portugal")
              (PyStr "Summer 2026")
              (Some (Samples.serving 200
                       [Samples.intern_card; Samples.bare_card])))
  /\ _parse_job_card Samples.bare_card = Ok Samples.bare_offer.
Proof.
  pose proof (parse_job_card_mandatory_fields Samples.host "100364837"
                "Portugal" "Summer 2026" [Samples.intern_card]
                [Samples.bare_card] Samples.no_company_card
                (or_intror (or_introl eq_refl)))
    as (Hparse & _ & Hfetch & _).
  pose proof (parse_job_card_mandatory_fields Samples.host "100364837"
                "Portugal" "Summer 2026" [Samples.intern_card]
                [Samples.bare_card] Samples.untitled_card
                (or_introl eq_refl))
    as (_ & Hskip & _ & Hfull & _).
  split; [split; reflexivity|].
  split; [exact Hparse|].
  split; [exact (Hfetch eq_refl)|].
  split; [exact (proj2 (Hskip eq_refl))|].
  exact (Hfull "Backend Developer Internship" "Initech" "Porto" None None).
Defined.

End ScraperFacts.

(* ===================================================================== *)
(** * The repository                                                      *)
(* ===================================================================== *)

Module RepositoryFacts.
Import Offers Repository.

Lemma add_jobs_fold (repo : gmap string JobOffer) (jobs : list JobOffer) :
  add_jobs repo jobs
  = (((fold_left step jobs (repo, 0)).2,
      size (fold_left step jobs (repo, 0)).1),
     (fold_left step jobs (repo, 0)).1).
Proof.
  unfold add_jobs. now destruct (fold_left step jobs (repo, 0)).
Qed.

Lemma add_job_present (repo : gmap string JobOffer) (job : JobOffer) :
  is_Some (repo !! get_hash job) -> add_job repo job = (repo, 0).
Proof. intros [r0 H]. unfold add_job. now rewrite H. Qed.

Lemma add_job_absent (repo : gmap string JobOffer) (job : JobOffer) :
  repo !! get_hash job = None ->
  add_job repo job = (<[get_hash job := job]> repo, 1).
Proof. intros H. unfold add_job. now rewrite H. Qed.

(** An entry that is there stays as it is. *)
Lemma add_job_keeps (repo : gmap string JobOffer) (job r0 : JobOffer)
    (h : string) :
  repo !! h = Some r0 -> (add_job repo job).1 !! h = Some r0.
Proof.
  intros H. unfold add_job.
  destruct (repo !! get_hash job) eqn:E; cbn; [exact H|].
  rewrite lookup_insert_ne; [exact H|]. congruence.
Qed.

Lemma fold_step_keeps (jobs : list JobOffer) :
  forall (acc : gmap string JobOffer * nat) (r0 : JobOffer) (h : string),
    acc.1 !! h = Some r0 -> (fold_left step jobs acc).1 !! h = Some r0.
Proof.
  induction jobs as [|job jobs IH]; intros acc r0 h H; [exact H|].
  cbn [fold_left]. apply IH. unfold step.
  pose proof (add_job_keeps acc.1 job r0 h H) as Hk.
  now destruct (add_job acc.1 job).
Qed.

Lemma add_jobs_keeps (repo : gmap string JobOffer) (jobs : list JobOffer)
    (r0 : JobOffer) (h : string) :
  repo !! h = Some r0 -> (add_jobs repo jobs).2 !! h = Some r0.
Proof.
  intros H. rewrite add_jobs_fold. cbn [snd].
  now apply fold_step_keeps.
Qed.

(** The two counts agree: the total grows by the number of new jobs. *)
Lemma fold_step_counts (jobs : list JobOffer) :
  forall acc : gmap string JobOffer * nat,
    (fold_left step jobs acc).2 + size acc.1
    = acc.2 + size (fold_left step jobs acc).1.
Proof.
  induction jobs as [|job jobs IH]; intros acc; [cbn; lia|].
  cbn [fold_left]. pose proof (IH (step acc job)) as Hrest.
  assert (Hstep : (step acc job).2 + size acc.1
                  = acc.2 + size (step acc job).1).
  { unfold step, add_job.
    destruct (acc.1 !! get_hash job) eqn:E; cbn; [lia|].
    rewrite (map_size_insert_None _ _ _ E). lia. }
  lia.
Qed.

Lemma add_jobs_counts (repo : gmap string JobOffer) (jobs : list JobOffer) :
  (add_jobs repo jobs).1.1 + size repo = (add_jobs repo jobs).1.2.
Proof.
  rewrite add_jobs_fold. cbn [fst snd].
  exact (fold_step_counts jobs (repo, 0)).
Qed.

Lemma add_jobs_single (repo : gmap string JobOffer) (r : JobOffer) :
  add_jobs repo [r]
  = match repo !! get_hash r with
    | Some _ => ((0, size repo), repo)
    | None =>
        ((1, size (<[get_hash r := r]> repo)), <[get_hash r := r]> repo)
    end.
Proof.
  rewrite add_jobs_fold. cbn [fold_left]. unfold step, add_job. cbn [fst snd].
  now destruct (repo !! get_hash r).
Qed.

(** C7.  After [add_jobs [r]], a second [add_jobs [r]] reports no new
    job and the same total, and leaves the store as it was; so does
    [add_jobs [r']] for any record [r'] with the hash of [r], and the
    record stored under that hash is still the first one seen.  More
    generally [add_jobs] never changes an entry that is present. *)
Theorem add_jobs_idempotent (repo : gmap string JobOffer) (r r' : JobOffer)
    (Hsame : get_hash r' = get_hash r) :
  add_jobs (add_jobs repo [r]).2 [r]
  = ((0, (add_jobs repo [r]).1.2), (add_jobs repo [r]).2)
  /\ add_jobs (add_jobs repo [r]).2 [r']
     = ((0, (add_jobs repo [r]).1.2), (add_jobs repo [r]).2)
  /\ (add_jobs repo [r]).2 !! get_hash r
     = Some (default r (repo !! get_hash r))
  /\ forall (jobs : list JobOffer) (h : string) (r0 : JobOffer),
       repo !! h = Some r0 -> (add_jobs repo jobs).2 !! h = Some r0.
Proof.
  assert (Hstored : (add_jobs repo [r]).2 !! get_hash r
                    = Some (default r (repo !! get_hash r))).
  { rewrite add_jobs_single.
    destruct (repo !! get_hash r) eqn:E; cbn; [exact E|].
    apply lookup_insert_eq. }
  assert (Hagain : forall x : JobOffer,
             get_hash x = get_hash r ->
             add_jobs (add_jobs repo [r]).2 [x]
             = ((0, (add_jobs repo [r]).1.2), (add_jobs repo [r]).2)).
  { intros x Hx. rewrite (add_jobs_single _ x), Hx, Hstored.
    rewrite (add_jobs_single repo r).
    now destruct (repo !! get_hash r). }
  split; [now apply Hagain|]. split; [now apply Hagain|].
  split; [exact Hstored|]. intros jobs h r0. apply add_jobs_keeps.
Qed.

(** The two sample records are the same posting in the eyes of the hash. *)
Lemma sample_hashes_agree :
  get_hash Samples.intern_offer_again = get_hash Samples.intern_offer.
Proof. vm_compute. reflexivity. Qed.

Lemma sample_first_insert :
  (add_jobs Repository.empty [Samples.intern_offer]).1 = (1, 1).
Proof. vm_compute. reflexivity. Qed.

Lemma add_jobs_idempotent_witness :
  Samples.intern_offer_again <> Samples.intern_offer
  /\ (add_jobs Repository.empty [Samples.intern_offer]).1 = (1, 1)
  /\ (add_jobs (add_jobs Repository.empty [Samples.intern_offer]).2
        [Samples.intern_offer]).1 = (0, 1)
  /\ (add_jobs (add_jobs Repository.empty [Samples.intern_offer]).2
        [Samples.intern_offer_again]).1 = (0, 1)
  /\ (add_jobs (add_jobs Repository.empty [Samples.intern_offer]).2
        [Samples.intern_offer_again]).2
     !! get_hash Samples.intern_offer_again
     = Some Samples.intern_offer.
Proof.
  pose proof (add_jobs_idempotent Repository.empty Samples.intern_offer
                Samples.intern_offer_again sample_hashes_agree)
    as (Hfirst & Hsecond & Hstored & _).
  split; [discriminate|]. split; [exact sample_first_insert|].
  rewrite Hfirst, Hsecond. cbn [fst snd].
  rewrite sample_first_insert. cbn [snd].
  split; [reflexivity|]. split; [reflexivity|].
  rewrite sample_hashes_agree, Hstored.
  unfold Repository.empty. now rewrite lookup_empty.
Defined.

End RepositoryFacts.

(* ===================================================================== *)
(** * The orchestrator                                                    *)
(* ===================================================================== *)

Module MainFacts.
Import Offers Scraper Repository Main.

Section Gather.
Context {A : Type}.
Implicit Types (outcomes : list (result A)) (finished : list nat).

Lemma first_raised_In finished outcomes (e : exn) :
  first_raised finished outcomes = Some e -> In (Raise e) outcomes.
Proof.
  induction finished as [|i later IH]; [discriminate|]. cbn.
  destruct (nth_error outcomes i) as [[a|e']|] eqn:Hi; auto.
  intros [= <-]. eapply nth_error_In, Hi.
Qed.

Lemma collect_raises outcomes (e : exn) :
  In (Raise e) outcomes ->
  exists e', In (Raise e') outcomes /\ collect outcomes = Raise e'.
Proof.
  induction outcomes as [|[a|e0] rest IH]; intros Hin; [destruct Hin| |].
  - destruct Hin as [Heq|Hin]; [discriminate|].
    destruct (IH Hin) as (e' & Hin' & Hc). exists e'.
    split; [now right|]. cbn. now rewrite Hc.
  - exists e0. split; [now left|reflexivity].
Qed.

Lemma collect_Ok outcomes (results : list A) :
  collect outcomes = Ok results -> outcomes = map Ok results.
Proof.
  revert results. induction outcomes as [|[a|e0] rest IH]; intros results.
  - now intros [= <-].
  - cbn. destruct (collect rest) as [more|e'] eqn:Hc; [|discriminate].
    cbn. intros [= <-]. cbn. now rewrite (IH more eq_refl).
  - discriminate.
Qed.

(** One failed task is enough for [gather] to raise, and what it raises is
    the exception of a task. *)
Lemma gather_raises finished outcomes (e : exn) :
  In (Raise e) outcomes ->
  exists e', In (Raise e') outcomes /\ gather finished outcomes = Raise e'.
Proof.
  intros Hin. unfold gather.
  destruct (first_raised finished outcomes) as [e'|] eqn:Hf.
  - exists e'. split; [now apply first_raised_In with finished|reflexivity].
  - now apply collect_raises with e.
Qed.

(** [gather] returns only when every task has returned. *)
Lemma gather_Ok finished outcomes (results : list A) :
  gather finished outcomes = Ok results -> outcomes = map Ok results.
Proof.
  unfold gather. destruct (first_raised finished outcomes); [discriminate|].
  apply collect_Ok.
Qed.

End Gather.

Lemma main_tasks (HOST : string) (LOCATIONS : list (string * string))
    (network : ClientSession) (finished : list nat) :
  main HOST LOCATIONS network finished
  = match gather finished (map snd (map (task HOST network) LOCATIONS)) with
    | Raise e =>
        {| outcome := Raise e; repo := Repository.empty; effects := [] |}
    | Ok results =>
        {| outcome := Ok tt; repo := (merge results).1.1;
           effects := (merge results).2
                      ++ [Export (get_all_jobs (merge results).1.1)] |}
    end.
Proof.
  unfold main.
  replace (map (fun '(location, geo_id) =>
                  fetch_jobs HOST (PyStr geo_id, PyStr location)
                    (PyStr "Summer 2026") (Some network)) LOCATIONS)
    with (map (task HOST network) LOCATIONS)
    by (apply map_ext; now intros [location geo_id]).
  destruct (gather _ _) as [results|e]; [|reflexivity].
  now destruct (merge results) as [[r n] done].
Qed.

(** The loop over the results calls [add_jobs] once per result, in order. *)
Lemma merge_effects (results : list (list JobOffer)) :
  (merge results).2 = map AddJobs results.
Proof.
  unfold merge.
  assert (H : forall acc : gmap string JobOffer * nat * list effect,
             (fold_left
                (fun acc jobs =>
                   let '(repo, total_new_jobs, done) := acc in
                   let '((new_jobs, _), repo') := add_jobs repo jobs in
                   (repo', total_new_jobs + new_jobs, done ++ [AddJobs jobs]))
                results acc).2
             = acc.2 ++ map AddJobs results).
  { induction results as [|jobs rest IH]; intros [[r n] done].
    - cbn. now rewrite app_nil_r.
    - cbn [fold_left map]. destruct (add_jobs r jobs) as [[new tot] r'].
      rewrite IH. cbn [snd]. now rewrite <- app_assoc. }
  now rewrite H.
Qed.

(** C8.  If the fetch of one location fails, [main] ends on an exception
    that is the failure of a location's fetch, whatever the order in which
    the fetches finish; it has called neither [add_jobs] nor the export,
    and the repository is as empty as it was created.  Conversely, in a
    run that calls [add_jobs] or exports, every location's fetch had
    returned its list. *)
Theorem main_all_or_nothing
    (HOST : string) (LOCATIONS : list (string * string))
    (network : ClientSession) (finished : list nat)
    (location geo_id : string) (e : exn)
    (Hin : In (location, geo_id) LOCATIONS)
    (Hfails : snd (fetch_jobs HOST (PyStr geo_id, PyStr location)
                     (PyStr "Summer 2026") (Some network))
              = Raise e) :
  (exists (e' : exn) (location' geo_id' : string),
      In (location', geo_id') LOCATIONS
      /\ snd (fetch_jobs HOST (PyStr geo_id', PyStr location')
                (PyStr "Summer 2026") (Some network))
         = Raise e'
      /\ outcome (main HOST LOCATIONS network finished) = Raise e')
  /\ effects (main HOST LOCATIONS network finished) = []
  /\ repo (main HOST LOCATIONS network finished) = ∅
  /\ forall (locations : list (string * string)) (session : ClientSession)
            (order : list nat),
       effects (main HOST locations session order) <> [] ->
       forall entry : string * string,
         In entry locations ->
         exists jobs : list JobOffer,
           snd (fetch_jobs HOST (PyStr entry.2, PyStr entry.1)
                  (PyStr "Summer 2026") (Some session))
           = Ok jobs.
Proof.
  assert (Hraised : In (Raise e) (map snd (map (task HOST network) LOCATIONS))).
  { apply in_map_iff. exists (task HOST network (location, geo_id)).
    split; [exact Hfails|]. now apply in_map. }
  destruct (gather_raises finished _ e Hraised) as (e' & Hin' & Hg).
  rewrite main_tasks, Hg. cbn [outcome effects repo].
  split; [|split; [reflexivity|split; [reflexivity|]]].
  - apply in_map_iff in Hin' as (t & Ht & Hin').
    apply in_map_iff in Hin' as ([location' geo_id'] & <- & Hin').
    exists e', location', geo_id'. auto.
  - intros locations session order Heffects entry Hentry.
    rewrite main_tasks in Heffects.
    destruct (gather order _) as [results|e0] eqn:Hgather;
      [|now cbn in Heffects].
    apply gather_Ok in Hgather.
    assert (Hone : In (snd (task HOST session entry))
                     (map snd (map (task HOST session) locations)))
      by (apply in_map, in_map, Hentry).
    rewrite Hgather in Hone. apply in_map_iff in Hone as (jobs & Hjobs & _).
    exists jobs. symmetry. exact Hjobs.
Qed.

Lemma main_all_or_nothing_witness :
  snd (fetch_jobs Samples.host (PyStr "100364837", PyStr "Portugal")
         (PyStr "Summer 2026") (Some Samples.one_location_down))
  = Ok [Samples.intern_offer; Samples.bare_offer]
  /\ outcome (main Samples.host Samples.two_locations
                Samples.one_location_down [1; 0])
     = Raise (ScrapingError
                "Error while requesting https://jobs.example/search/?keywords=Summer%202026&geoId=105015875")
  /\ effects (main Samples.host Samples.two_locations
                Samples.one_location_down [1; 0]) = []
  /\ repo (main Samples.host Samples.two_locations
             Samples.one_location_down [1; 0]) = ∅.
Proof.
  pose proof (main_all_or_nothing Samples.host Samples.two_locations
                Samples.one_location_down [1; 0] "France" "105015875"
                (ScrapingError
                   "Error while requesting https://jobs.example/search/?keywords=Summer%202026&geoId=105015875")
                (or_intror (or_introl eq_refl)) eq_refl)
    as (_ & Heffects & Hrepo & _).
  split; [vm_compute; reflexivity|].
  split; [vm_compute; reflexivity|].
  split; [exact Heffects|exact Hrepo].
Defined.

(** ** A run without failure *)

Lemma first_raised_Ok {A} (finished : list nat) (results : list A) :
  first_raised finished (map Ok results) = None.
Proof.
  induction finished as [|i later IH]; [reflexivity|]. cbn.
  rewrite nth_error_map. now destruct (nth_error results i).
Qed.

Lemma collect_map_Ok {A} (results : list A) :
  collect (map Ok results) = Ok results.
Proof.
  induction results as [|a rest IH]; [reflexivity|]. cbn. now rewrite IH.
Qed.

(** When every fetch returns, the repository is fed once per location, in
    the order of [LOCATIONS], and then exported. *)
Lemma main_merges_in_order (HOST : string)
    (LOCATIONS : list (string * string)) (network : ClientSession)
    (finished : list nat) (results : list (list JobOffer)) :
  map snd (map (task HOST network) LOCATIONS) = map Ok results ->
  outcome (main HOST LOCATIONS network finished) = Ok tt
  /\ effects (main HOST LOCATIONS network finished)
     = map AddJobs results
       ++ [Export (get_all_jobs (repo (main HOST LOCATIONS network finished)))].
Proof.
  intros Hall. rewrite main_tasks, Hall. unfold gather.
  rewrite first_raised_Ok, collect_map_Ok. cbn [outcome effects repo].
  now rewrite merge_effects.
Qed.

(** The scenario of the specification: two locations, the second one
    bringing one posting already seen and one new; three postings are
    stored and three are counted as new. *)
Example two_locations_three_jobs :
  let results :=
    [[Samples.intern_offer; Samples.bare_offer];
     [mkJobOffer (Some "Software Engineer Intern") (Some "Acme")
        (Some "Lisbon, Portugal") (Some "2025-12-24")
        (Some "https://jobs.example/view/2") None;
      mkJobOffer (Some "Cloud Platform Intern") (Some "Globex")
        (Some "Lyon") None None None]] in
  let r := main Samples.host Samples.two_locations
             Samples.both_locations_up [0; 1] in
  map snd (map (task Samples.host Samples.both_locations_up)
             Samples.two_locations)
  = map Ok results
  /\ outcome r = Ok tt
  /\ size (repo r) = 3
  /\ (merge results).1.2 = 3
  /\ length (effects r) = 3.
Proof. vm_compute. repeat split; reflexivity. Qed.

End MainFacts.

(* ===================================================================== *)
(** * Further properties: text and keywords                               *)
(* ===================================================================== *)

Module TextMore.
Import Text TextFacts Scraper Views.

(** ** [strip] *)

Lemma lstrip_head (s : string) :
  match lstrip s with
  | EmptyString => True
  | String c _ => isspace c = false
  end.
Proof.
  induction s as [|c s IH]; [exact I|]. cbn.
  destruct (isspace c) eqn:E; [exact IH|exact E].
Qed.

Lemma lstrip_fixed (s : string) :
  match s with
  | EmptyString => True
  | String c _ => isspace c = false
  end ->
  lstrip s = s.
Proof. destruct s as [|c s]; [reflexivity|]. cbn. now intros ->. Qed.

Lemma rstrip_head (s : string) :
  match s with
  | EmptyString => True
  | String c _ => isspace c = false
  end ->
  match rstrip s with
  | EmptyString => True
  | String c _ => isspace c = false
  end.
Proof.
  destruct s as [|c s]; [intros _; exact I|]. cbn. intros E.
  destruct (rstrip s); [now rewrite E|exact E].
Qed.

Lemma rstrip_idempotent (s : string) : rstrip (rstrip s) = rstrip s.
Proof.
  induction s as [|c s IH]; [reflexivity|]. cbn [rstrip].
  destruct (rstrip s) as [|d r] eqn:E.
  - destruct (isspace c) eqn:Ec; [reflexivity|]. cbn. now rewrite Ec.
  - cbn [rstrip]. cbn [rstrip] in IH. rewrite IH. reflexivity.
Qed.

Lemma strip_idempotent (s : string) : strip (strip s) = strip s.
Proof.
  unfold strip.
  rewrite (lstrip_fixed (rstrip (lstrip s))).
  - apply rstrip_idempotent.
  - apply rstrip_head, lstrip_head.
Qed.

Lemma rstrip_last (s : string) :
  match last_char (rstrip s) with
  | None => rstrip s = EmptyString
  | Some c => isspace c = false
  end.
Proof.
  induction s as [|c s IH]; [reflexivity|]. cbn [rstrip].
  destruct (rstrip s) as [|d r] eqn:E.
  - destruct (isspace c) eqn:Ec; [reflexivity|exact Ec].
  - change (last_char (String c (String d r))) with (last_char (String d r)).
    destruct (last_char (String d r)); [exact IH|discriminate].
Qed.

(** What [strip] returns has no white space at either end. *)
Lemma strip_trimmed (s : string) : trimmed (strip s) = true.
Proof.
  unfold strip. pose proof (rstrip_head _ (lstrip_head s)) as Hh.
  pose proof (rstrip_last (lstrip s)) as Hl.
  destruct (rstrip (lstrip s)) as [|c r] eqn:E; [reflexivity|].
  unfold trimmed, solid. cbn [head_char]. rewrite Hh.
  destruct (last_char (String c r)) as [d|]; [now rewrite Hl|discriminate].
Qed.

(** ** [_format_keywords] *)

Lemma contains_space_cons (c : ascii) (s : string) :
  contains " " (String c s)
  = (if ascii_dec " "%char c then true else contains " " s).
Proof.
  cbn [contains startswith]. destruct (ascii_dec " "%char c); [|reflexivity].
  now destruct s.
Qed.

Lemma format_keywords_cons (c : ascii) (s : string) :
  _format_keywords (String c s)
  = (if ascii_dec c " "%char then "%20" else String c "")
    +:+ _format_keywords s.
Proof.
  unfold _format_keywords. cbn [replace_char].
  now destruct (ascii_dec c " "%char).
Qed.

Lemma format_keywords_app (a b : string) :
  _format_keywords (a +:+ b) = _format_keywords a +:+ _format_keywords b.
Proof.
  induction a as [|c a IH]; [reflexivity|].
  rewrite app_cons, !format_keywords_cons, IH. now rewrite app_assoc.
Qed.


(** X2.  [_format_keywords] escapes nothing but the space, so it cannot be
    undone: keywords with a space and the same keywords with "%20" written
    in its place give the same text, hence the same request. *)
Theorem format_keywords_not_injective (a b host geo_id : string) :
  a +:+ " " +:+ b <> a +:+ "%20" +:+ b
  /\ _format_keywords (a +:+ " " +:+ b) = _format_keywords (a +:+ "%20" +:+ b)
  /\ request_url host (_format_keywords (a +:+ " " +:+ b)) geo_id
     = request_url host (_format_keywords (a +:+ "%20" +:+ b)) geo_id.
Proof.
  assert (H : _format_keywords (a +:+ " " +:+ b)
              = _format_keywords (a +:+ "%20" +:+ b))
    by (rewrite !format_keywords_app; reflexivity).
  split; [|split; [exact H|now rewrite H]].
  clear H. induction a as [|c a IH].
  - rewrite !app_nil_l, !app_cons. discriminate.
  - rewrite !app_cons. intros [= E]. exact (IH E).
Qed.

End TextMore.

(* ===================================================================== *)
(** * Further properties: the filter                                      *)
(* ===================================================================== *)

Module FilterMore.
Import Text TextFacts Scraper Views.

Lemma Substring_trans (a b s : string) :
  Substring a b -> Substring b s -> Substring a s.
Proof.
  intros (p1 & q1 & ->) (p2 & q2 & ->).
  exists (p2 +:+ p1), (q1 +:+ q2). now rewrite !app_assoc.
Qed.

(** A text that contains a keyword contains every part of the keyword. *)
Lemma contains_part (a b s : string) :
  contains a b = true -> contains b s = true -> contains a s = true.
Proof.
  rewrite !contains_iff. apply Substring_trans.
Qed.

Lemma filter_with_code (card : Tag) :
  _filter_cards card
  = filter_with pos included_keywords excluded_keywords card.
Proof. reflexivity. Qed.

(** X3.  The verdict of [_filter_cards] depends on the title alone, and on
    the title only up to the case of its letters and the white space
    around it: two cards whose titles agree once lower-cased and stripped
    get the same verdict, whatever their other elements are. *)
Theorem filter_cards_title_only (c1 c2 : Tag) (t1 t2 : string)
    (H1 : h3_title c1 = Some t1) (H2 : h3_title c2 = Some t2)
    (Hsame : strip (lower t1) = strip (lower t2)) :
  _filter_cards c1 = _filter_cards c2.
Proof.
  unfold _filter_cards. rewrite H1, H2. cbv zeta.
  now rewrite !lower_strip, Hsame.
Qed.

Lemma filter_cards_title_only_witness :
  "  SOFTWARE ENGINEER INTERN" <> "software engineer intern  "
  /\ h4_subtitle shouting_card <> h4_subtitle quiet_card
  /\ _filter_cards shouting_card = _filter_cards quiet_card.
Proof.
  split; [discriminate|]. split; [discriminate|].
  exact (filter_cards_title_only shouting_card quiet_card
           "  SOFTWARE ENGINEER INTERN" "software engineer intern  "
           eq_refl eq_refl eq_refl).
Defined.

(** X4.  Two keywords of [_filter_cards] decide nothing: a title that
    contains "internship" contains "intern", and one that contains
    "engineering" contains "engineer"; the filter without these two
    keywords gives the same verdict on every card. *)
Theorem filter_cards_redundant_keywords (card : Tag) :
  _filter_cards card
  = filter_with ["intern"; "apprentice"]
      ["backend"; "cloud"; "devops"; "platform"; "site reliability";
       "software"; "developer"; "engineer"]
      excluded_keywords card.
Proof.
  rewrite filter_with_code. unfold filter_with.
  destruct (h3_title card) as [text|]; [|reflexivity]. cbv zeta.
  set (s := lower (strip text)).
  assert (Hpos : any (fun p => contains p s) pos
                 = any (fun p => contains p s) ["intern"; "apprentice"]).
  { unfold any, pos. cbn [existsb].
    destruct (contains "internship" s) eqn:E; [|now rewrite !orb_false_r].
    now rewrite (contains_part "intern" "internship" s eq_refl E). }
  assert (Hinc : any (fun k => contains k s) included_keywords
                 = any (fun k => contains k s)
                     ["backend"; "cloud"; "devops"; "platform";
                      "site reliability"; "software"; "developer";
                      "engineer"]).
  { unfold any, included_keywords. cbn [existsb].
    destruct (contains "engineering" s) eqn:E; [|reflexivity].
    rewrite (contains_part "engineer" "engineering" s eq_refl E).
    now rewrite !orb_true_r. }
  now rewrite Hpos, Hinc.
Qed.

End FilterMore.

(* ===================================================================== *)
(** * Further properties: the parser and the fetcher                      *)
(* ===================================================================== *)

Module ScraperMore.
Import Text TextFacts Offers Scraper Views ScraperFacts.

(** ** The loop, when it returns *)

Lemma scan_returns (cards : list Tag) :
  forall (jobs0 jobs : list JobOffer) (f0 f : nat),
    scan cards jobs0 f0 = Ok (jobs, f) ->
    exists new : list JobOffer,
      jobs = jobs0 ++ new
      /\ map Ok new = map _parse_job_card (accepted cards)
      /\ f = f0 + rejected cards.
Proof.
  unfold accepted, rejected.
  induction cards as [|card rest IH]; intros jobs0 jobs f0 f.
  - cbn. intros [= <- <-]. exists []. now rewrite List.app_nil_r, Nat.add_0_r.
  - cbn [scan List.filter]. destruct (_filter_cards card) eqn:Hc; cbn [negb].
    + destruct (_parse_job_card card) as [job|e] eqn:Hp; [|discriminate].
      intros H. destruct (IH _ _ _ _ H) as (new & -> & Hnew & ->).
      exists (job :: new). rewrite <- List.app_assoc. cbn [app map].
      now rewrite Hp, Hnew.
    + intros H. destruct (IH _ _ _ _ H) as (new & -> & Hnew & ->).
      exists new. cbn [length]. repeat split; auto; lia.
Qed.

(** The loop returns when every card it keeps can be parsed. *)
Lemma scan_total (cards : list Tag) :
  forall (jobs0 : list JobOffer) (f0 : nat),
    (forall card, In card cards -> _filter_cards card = true ->
                  exists job, _parse_job_card card = Ok job) ->
    exists found, scan cards jobs0 f0 = Ok found.
Proof.
  induction cards as [|card rest IH]; intros jobs0 f0 Hall; [now eexists|].
  cbn [scan]. destruct (_filter_cards card) eqn:Hc; cbn [negb].
  - destruct (Hall card (or_introl eq_refl) Hc) as [job ->].
    apply IH. intros c Hin. apply Hall. now right.
  - apply IH. intros c Hin. apply Hall. now right.
Qed.

Lemma accepted_has_title (card : Tag) :
  _filter_cards card = true -> exists t, h3_title card = Some t.
Proof.
  unfold _filter_cards. destruct (h3_title card) as [t|]; [eauto|discriminate].
Qed.

Lemma partition_cards (cards : list Tag) :
  length (accepted cards) + rejected cards = length cards.
Proof.
  unfold accepted, rejected. induction cards as [|card rest IH]; [reflexivity|].
  cbn [List.filter]. destruct (_filter_cards card); cbn [negb length]; lia.
Qed.

(** X5.  When the loop over the cards ends normally, its two counters
    add up: the jobs found and the cards filtered out are together as
    many as the cards, and the filtered count is the number of cards the
    filter rejects. *)
Theorem scan_counts (cards : list Tag) (jobs : list JobOffer)
    (filtered : nat)
    (Hscan : scan cards [] 0 = Ok (jobs, filtered)) :
  length jobs + filtered = length cards
  /\ filtered = rejected cards
  /\ length jobs = length (accepted cards).
Proof.
  destruct (scan_returns cards [] jobs 0 filtered Hscan)
    as (new & -> & Hnew & ->).
  cbn [app]. pose proof (partition_cards cards) as Hpart.
  apply (f_equal (@length _)) in Hnew. rewrite !length_map in Hnew.
  cbn [Nat.add]. repeat split; auto; lia.
Qed.

Lemma scan_counts_witness :
  scan [Samples.intern_card; Samples.marketing_card; Samples.untitled_card;
        Samples.bare_card] [] 0
  = Ok ([Samples.intern_offer; Samples.bare_offer], 2)
  /\ length [Samples.intern_offer; Samples.bare_offer] + 2 = 4.
Proof.
  assert (H : scan [Samples.intern_card; Samples.marketing_card;
                    Samples.untitled_card; Samples.bare_card] [] 0
              = Ok ([Samples.intern_offer; Samples.bare_offer], 2))
    by reflexivity.
  split; [exact H|].
  exact (proj1 (scan_counts _ _ _ H)).
Defined.

(** X6.  The list [fetch_jobs] returns holds the records of exactly the
    cards the filter accepts, one per card and in the order of the
    cards; this happens only on status 200. *)
Theorem fetch_jobs_returns_accepted
    (host geo_id country keywords : string) (session : ClientSession)
    (response : ClientResponse) (jobs : list JobOffer)
    (Hget : session (request_url host (_format_keywords keywords) geo_id)
            = Responds response)
    (Hok : snd (fetch_jobs host (PyStr geo_id, PyStr country)
                  (PyStr keywords) (Some session))
           = Ok jobs) :
  status response = 200%Z
  /\ map Ok jobs = map _parse_job_card (accepted (cards response))
  /\ length jobs = length (accepted (cards response))
  /\ length jobs <= length (cards response).
Proof.
  destruct (Z.eq_dec (status response) 200%Z) as [H200|Hne].
  - rewrite (fetch_jobs_200 _ _ _ _ _ _ Hget H200) in Hok. cbn [snd] in Hok.
    destruct (scan (cards response) [] 0) as [[found f]|e] eqn:Hscan;
      [|discriminate].
    cbn in Hok. injection Hok as <-.
    destruct (scan_returns _ _ _ _ _ Hscan) as (new & -> & Hnew & _).
    cbn [app]. pose proof (partition_cards (cards response)) as Hpart.
    assert (Hlen : length new = length (accepted (cards response))).
    { apply (f_equal (@length _)) in Hnew. now rewrite !length_map in Hnew. }
    repeat split; auto; lia.
  - rewrite (fetch_jobs_not_200 _ _ _ _ _ _ Hget Hne) in Hok. discriminate.
Qed.

Lemma fetch_jobs_returns_accepted_witness :
  accepted [Samples.intern_card; Samples.marketing_card; Samples.bare_card]
  = [Samples.intern_card; Samples.bare_card]
  /\ map Ok [Samples.intern_offer; Samples.bare_offer]
     = map _parse_job_card
         (accepted [Samples.intern_card; Samples.marketing_card;
                    Samples.bare_card]).
Proof.
  split; [reflexivity|].
  exact (proj1 (proj2
    (fetch_jobs_returns_accepted Samples.host "100364837" "Portugal"
       "Summer 2026"
       (Samples.serving 200
          [Samples.intern_card; Samples.marketing_card; Samples.bare_card])
       (mkResponse 200
          [Samples.intern_card; Samples.marketing_card; Samples.bare_card])
       [Samples.intern_offer; Samples.bare_offer] eq_refl eq_refl))).
Defined.

(** ** How a call can end *)

Lemma parse_job_card_Ok_iff (card : Tag) :
  (exists job, _parse_job_card card = Ok job)
  <-> h3_title card <> None /\ h4_subtitle card <> None
      /\ span_location card <> None.
Proof.
  unfold _parse_job_card, text_of.
  destruct (h3_title card), (h4_subtitle card), (span_location card); cbn;
    split; try (intros [job H]; discriminate);
    try (intros (H1 & H2 & H3); congruence).
  - intros _. repeat split; discriminate.
  - intros _. eauto.
Qed.

Lemma scan_raises_inv (cards : list Tag) :
  forall (jobs : list JobOffer) (filtered : nat) (e : exn),
    scan cards jobs filtered = Raise e ->
    exists card,
      In card cards /\ _filter_cards card = true
      /\ _parse_job_card card = Raise none_has_no_text.
Proof.
  induction cards as [|c rest IH]; intros jobs filtered e; [discriminate|].
  cbn [scan]. destruct (_filter_cards c) eqn:Hc; cbn [negb].
  - destruct (_parse_job_card c) as [job|err] eqn:Hp.
    + intros H. destruct (IH _ _ _ H) as (card & Hin & Ha & Hf).
      exists card. repeat split; auto. now right.
    + intros _. exists c. rewrite <- (parse_job_card_raises c err Hp).
      repeat split; auto. now left.
  - intros H. destruct (IH _ _ _ H) as (card & Hin & Ha & Hf).
    exists card. repeat split; auto. now right.
Qed.

(** An accepted card fails to parse exactly when its company or its
    location element is missing. *)
Lemma accepted_unparsed_iff (card : Tag) :
  _filter_cards card = true ->
  (_parse_job_card card = Raise none_has_no_text
   <-> h4_subtitle card = None \/ span_location card = None).
Proof.
  intros Hacc. destruct (accepted_has_title card Hacc) as [t Ht]. split.
  - intros Hp. unfold _parse_job_card, text_of in Hp. rewrite Ht in Hp.
    destruct (h4_subtitle card); [|now left].
    destruct (span_location card); [discriminate|now right].
  - intros H. apply parse_job_card_missing. tauto.
Qed.

Lemma fetch_jobs_Ok_inv (host geo_id country keywords : string)
    (session : ClientSession) (response : ClientResponse)
    (jobs : list JobOffer) :
  session (request_url host (_format_keywords keywords) geo_id)
  = Responds response ->
  snd (fetch_jobs host (PyStr geo_id, PyStr country) (PyStr keywords)
         (Some session))
  = Ok jobs ->
  status response = 200%Z
  /\ exists filtered, scan (cards response) [] 0 = Ok (jobs, filtered).
Proof.
  intros Hget Hok.
  destruct (Z.eq_dec (status response) 200%Z) as [H200|Hne].
  - split; [exact H200|].
    rewrite (fetch_jobs_200 _ _ _ _ _ _ Hget H200) in Hok. cbn [snd] in Hok.
    destruct (scan (cards response) [] 0) as [[found f]|e]; [|discriminate].
    cbn in Hok. injection Hok as <-. now exists f.
  - rewrite (fetch_jobs_not_200 _ _ _ _ _ _ Hget Hne) in Hok. discriminate.
Qed.



(** ** What the records returned look like *)

(** The filter gives a title and the stripped title the same verdict. *)
Lemma filter_cards_stripped (t : string)
    (sub loc : option string) (link time : option (option string))
    (sub' loc' : option string) (link' time' : option (option string)) :
  _filter_cards (mkTag (Some (strip t)) sub loc link time)
  = _filter_cards (mkTag (Some t) sub' loc' link' time').
Proof.
  unfold _filter_cards. cbn [h3_title].
  now rewrite TextMore.strip_idempotent.
Qed.

(** X8.  Every record in the list [fetch_jobs] returns has its title,
    company and location present and free of white space at both ends,
    and no description; its title, as stored, still passes the filter. *)
Theorem fetched_records_normalised
    (host geo_id country keywords : string) (session : ClientSession)
    (response : ClientResponse) (jobs : list JobOffer) (job : JobOffer)
    (Hget : session (request_url host (_format_keywords keywords) geo_id)
            = Responds response)
    (Hok : snd (fetch_jobs host (PyStr geo_id, PyStr country)
                  (PyStr keywords) (Some session))
           = Ok jobs)
    (Hin : In job jobs) :
  (exists t n l : string,
      title job = Some t /\ company_name job = Some n
      /\ location job = Some l
      /\ trimmed t = true /\ trimmed n = true /\ trimmed l = true)
  /\ description job = None
  /\ forall sub loc link time,
       _filter_cards (mkTag (title job) sub loc link time) = true.
Proof.
  destruct (fetch_jobs_Ok_inv _ _ _ _ _ _ _ Hget Hok) as (_ & f & Hscan).
  destruct (scan_returns _ _ _ _ _ Hscan) as (new & Hjobs & Hnew & _).
  cbn [app] in Hjobs. subst new.
  assert (Hcard : exists card, _parse_job_card card = Ok job
                               /\ _filter_cards card = true).
  { apply (in_map Ok) in Hin. rewrite Hnew in Hin.
    apply in_map_iff in Hin as (card & Hp & Hc).
    apply filter_In in Hc as [_ Hacc]. eauto. }
  destruct Hcard as (card & Hp & Hacc).
  destruct card as [[t|] [n|] [l|] link time]; try discriminate.
  cbn in Hp. injection Hp as <-. cbn [title company_name location description].
  split; [|split; [reflexivity|]].
  - exists (strip t), (strip n), (strip l).
    repeat split; apply TextMore.strip_trimmed.
  - intros sub loc link' time'. rewrite <- Hacc.
    apply filter_cards_stripped.
Qed.

Lemma fetched_records_normalised_witness :
  _parse_job_card Samples.intern_card = Ok Samples.intern_offer
  /\ h3_title Samples.intern_card = Some "  Software Engineer Intern "
  /\ title Samples.intern_offer = Some "Software Engineer Intern"
  /\ _filter_cards (mkTag (title Samples.intern_offer) None None None None)
     = true.
Proof.
  split; [reflexivity|]. split; [reflexivity|]. split; [reflexivity|].
  exact (proj2 (proj2
    (fetched_records_normalised Samples.host "100364837" "Portugal"
       "Summer 2026"
       (Samples.serving 200 [Samples.marketing_card; Samples.intern_card])
       (mkResponse 200 [Samples.marketing_card; Samples.intern_card])
       [Samples.intern_offer] Samples.intern_offer eq_refl eq_refl
       (or_introl eq_refl))) None None None None).
Defined.

(** ** The requests of a call *)

(** X9.  A call of [fetch_jobs] makes one request at most, and none
    exactly when an argument is not text or no session is given.  The
    display name of the location has no part in the call: with another
    name the requests and the result are the same. *)
Theorem fetch_jobs_one_request (host : string)
    (geo_id country keywords : pyval) (session : option ClientSession)
    (name1 name2 : string) :
  length (fst (fetch_jobs host (geo_id, country) keywords session)) <= 1
  /\ (fst (fetch_jobs host (geo_id, country) keywords session) = []
      <-> forallb isinstance_str [geo_id; country; keywords] = false
          \/ session = None)
  /\ fetch_jobs host (geo_id, PyStr name1) keywords session
     = fetch_jobs host (geo_id, PyStr name2) keywords session.
Proof.
  split; [|split].
  - unfold fetch_jobs.
    destruct (forallb isinstance_str [geo_id; country; keywords]);
      cbn [negb]; [|cbn; lia].
    destruct session; cbn; lia.
  - unfold fetch_jobs.
    destruct (forallb isinstance_str [geo_id; country; keywords]);
      cbn [negb].
    + destruct session; cbn [fst]; split; try discriminate; try tauto.
      intros [H|H]; discriminate.
    + cbn [fst]. tauto.
  - unfold fetch_jobs. cbn [forallb isinstance_str]. reflexivity.
Qed.

End ScraperMore.

(* ===================================================================== *)
(** * Further properties: the identity hash                               *)
(* ===================================================================== *)

Module OfferMore.
Import Text Offers Views.
Local Open Scope Z_scope.

Lemma le_bytes_length (n : nat) (x : Z) : length (MD5.le_bytes n x) = n.
Proof.
  revert x. induction n as [|n IH]; intros x; [reflexivity|].
  cbn. now rewrite IH.
Qed.

Lemma le_bytes_bytes (n : nat) (x : Z) : Forall is_byte (MD5.le_bytes n x).
Proof.
  revert x. induction n as [|n IH]; intros x; [constructor|].
  cbn [MD5.le_bytes]. constructor; [|apply IH].
  unfold is_byte. change 0xFF with (Z.ones 8).
  rewrite Z.land_ones by lia. apply Z.mod_pos_bound. lia.
Qed.

Lemma digest_length (msg : list Z) : length (MD5.digest msg) = 16%nat.
Proof.
  unfold MD5.digest. destruct (fold_left _ _ _) as [[[a b] c] d].
  now rewrite !length_app, !le_bytes_length.
Qed.

Lemma digest_bytes (msg : list Z) : Forall is_byte (MD5.digest msg).
Proof.
  unfold MD5.digest. destruct (fold_left _ _ _) as [[[a b] c] d].
  rewrite !Forall_app. repeat split; apply le_bytes_bytes.
Qed.

Lemma hex_digit_hex (d : Z) :
  0 <= d < 16 -> is_hex_char (MD5.hex_digit d) = true.
Proof.
  intros H.
  assert (d = 0 \/ d = 1 \/ d = 2 \/ d = 3 \/ d = 4 \/ d = 5 \/ d = 6
          \/ d = 7 \/ d = 8 \/ d = 9 \/ d = 10 \/ d = 11 \/ d = 12
          \/ d = 13 \/ d = 14 \/ d = 15) as Hd by lia.
  repeat (destruct Hd as [->|Hd]; [reflexivity|]). now subst.
Qed.

Lemma hex_length (bs : list Z) :
  String.length (MD5.hex bs) = (2 * length bs)%nat.
Proof.
  induction bs as [|b bs IH]; [reflexivity|].
  cbn [MD5.hex String.length length]. rewrite IH. lia.
Qed.

Lemma hex_chars (bs : list Z) :
  Forall is_byte bs -> all_chars is_hex_char (MD5.hex bs) = true.
Proof.
  induction 1 as [|b bs Hb Hbs IH]; [reflexivity|].
  cbn [MD5.hex all_chars]. unfold is_byte in Hb.
  rewrite IH, !hex_digit_hex; [reflexivity| |].
  - change 0xF with (Z.ones 4). rewrite Z.land_ones by lia.
    apply Z.mod_pos_bound. lia.
  - rewrite Z.shiftr_div_pow2 by lia. change (2 ^ 4) with 16. split.
    + apply Z.div_pos; lia.
    + apply Z.div_lt_upper_bound; lia.
Qed.


End OfferMore.

(* ===================================================================== *)
(** * Further properties: the orchestrator                                *)
(* ===================================================================== *)

Module MainMore.
Import Offers Scraper Repository Main MainFacts.

Lemma tasks_all_Ok (HOST : string) (network : ClientSession)
    (LOCATIONS : list (string * string)) (results : list (list JobOffer)) :
  Forall2 (fun entry jobs =>
             snd (fetch_jobs HOST (PyStr entry.2, PyStr entry.1)
                    (PyStr "Summer 2026") (Some network))
             = Ok jobs)
          LOCATIONS results ->
  map snd (map (task HOST network) LOCATIONS) = map Ok results.
Proof.
  induction 1 as [|entry jobs rest more H _ IH]; [reflexivity|].
  cbn [map]. rewrite IH. f_equal. exact H.
Qed.

(** X11.  When the fetch of every location returns its list, [main] ends
    normally whatever the order in which the fetches finish, and that
    order changes nothing: [add_jobs] is called once per location, with
    the list of that location, in the order of [LOCATIONS], and the
    export comes once, last, with the jobs of the repository. *)
Theorem main_merges_all
    (HOST : string) (LOCATIONS : list (string * string))
    (network : ClientSession) (finished finished' : list nat)
    (results : list (list JobOffer))
    (Hall : Forall2 (fun entry jobs =>
                       snd (fetch_jobs HOST (PyStr entry.2, PyStr entry.1)
                              (PyStr "Summer 2026") (Some network))
                       = Ok jobs)
                    LOCATIONS results) :
  outcome (main HOST LOCATIONS network finished) = Ok tt
  /\ effects (main HOST LOCATIONS network finished)
     = map AddJobs results
       ++ [Export (get_all_jobs (repo (main HOST LOCATIONS network finished)))]
  /\ main HOST LOCATIONS network finished
     = main HOST LOCATIONS network finished'.
Proof.
  pose proof (tasks_all_Ok _ _ _ _ Hall) as Htasks.
  destruct (main_merges_in_order HOST LOCATIONS network finished results
              Htasks) as [Hout Heff].
  split; [exact Hout|]. split; [exact Heff|].
  rewrite !main_tasks, Htasks. unfold gather.
  now rewrite !first_raised_Ok, collect_map_Ok.
Qed.

Lemma main_merges_all_witness :
  effects (main Samples.host Samples.two_locations Samples.both_locations_up
             [1; 0])
  = [AddJobs [Samples.intern_offer; Samples.bare_offer];
     AddJobs [mkJobOffer (Some "Software Engineer Intern") (Some "Acme")
                (Some "Lisbon, Portugal") (Some "2025-12-24")
                (Some "https://jobs.example/view/2") None;
              mkJobOffer (Some "Cloud Platform Intern") (Some "Globex")
                (Some "Lyon") None None None];
     Export (get_all_jobs
               (repo (main Samples.host Samples.two_locations
                        Samples.both_locations_up [1; 0])))].
Proof.
  refine (proj1 (proj2
    (main_merges_all Samples.host Samples.two_locations
       Samples.both_locations_up [1; 0] [0; 1]
       [[Samples.intern_offer; Samples.bare_offer];
        [mkJobOffer (Some "Software Engineer Intern") (Some "Acme")
           (Some "Lisbon, Portugal") (Some "2025-12-24")
           (Some "https://jobs.example/view/2") None;
         mkJobOffer (Some "Cloud Platform Intern") (Some "Globex")
           (Some "Lyon") None None None]] _))).
  repeat constructor.
Defined.

End MainMore.
